(** * A shallow embedding of the physics sandbox

    Two programs are embedded: [src/script.js] (the spawn sandbox, module
    [Script]) and the launch variant (module [Launch]).  Both drive a
    cannon-es physics world from a per-frame [tick] and mirror body
    poses onto three.js meshes.

    Conventions of the embedding:
    - JavaScript numbers are idealised as real numbers ([R]); rounding of
      double-precision arithmetic is abstracted away.
    - JavaScript objects that are shared by reference (meshes, bodies,
      the plain [{x, y, z}] objects handed to the factories) live in
      stores indexed by references; every [new] picks a reference that
      is fresh for its store.
    - The physics engine and the random source are outside the
      repository: they are the fields of the class [Host]. *)

From Stdlib Require Import Reals Lra Lia List.
From stdpp Require Import gmap list strings.

Local Open Scope R_scope.

(** References to heap-allocated JavaScript objects. *)
Definition ref := nat.

(** ** Vectors and quaternions (shared by three.js and cannon-es) *)

Module Vec3.
Record t := mk { x : R; y : R; z : R }.
End Vec3.

Module Quaternion.
Record t := mk { x : R; y : R; z : R; w : R }.

Definition identity : t := mk 0 0 0 1.

(** [q.setFromAxisAngle(axis, angle)] *)
Definition setFromAxisAngle (axis : Vec3.t) (angle : R) : t :=
  let s := sin (angle * 0.5) in
  mk (Vec3.x axis * s) (Vec3.y axis * s) (Vec3.z axis * s) (cos (angle * 0.5)).
End Quaternion.

(** ** The three.js objects the programs touch *)

Module THREE.
Inductive Geometry :=
| SphereGeometry (radius : R) (widthSegments heightSegments : nat)
| BoxGeometry (width height depth : R)
| CylinderGeometry (radiusTop radiusBottom height : R) (radialSegments : nat)
| PlaneGeometry (width height : R).

Record Mesh := mkMesh {
  geometry : Geometry;
  position : Vec3.t;
  quaternion : Quaternion.t;
  scale : Vec3.t;
  castShadow : bool;
  receiveShadow : bool
}.

(** [new THREE.Mesh(geometry, material)]: at the origin, unrotated,
    unit scale.  Materials are presentation only and are left out. *)
Definition newMesh (g : Geometry) : Mesh :=
  mkMesh g (Vec3.mk 0 0 0) Quaternion.identity (Vec3.mk 1 1 1) false false.

Definition set_position (p : Vec3.t) (m : Mesh) : Mesh :=
  mkMesh (geometry m) p (quaternion m) (scale m) (castShadow m) (receiveShadow m).
Definition set_quaternion (q : Quaternion.t) (m : Mesh) : Mesh :=
  mkMesh (geometry m) (position m) q (scale m) (castShadow m) (receiveShadow m).
Definition set_scale (s : Vec3.t) (m : Mesh) : Mesh :=
  mkMesh (geometry m) (position m) (quaternion m) s (castShadow m) (receiveShadow m).
Definition set_castShadow (b : bool) (m : Mesh) : Mesh :=
  mkMesh (geometry m) (position m) (quaternion m) (scale m) b (receiveShadow m).
Definition set_receiveShadow (b : bool) (m : Mesh) : Mesh :=
  mkMesh (geometry m) (position m) (quaternion m) (scale m) (castShadow m) b.

(** Modelled from the spec: three.js is not part of the repository.
    The scene is the list of the meshes attached to it, in insertion
    order; [scene.add] attaches a mesh and [scene.remove] detaches it
    (section 4.5: "remove its proxy from the scene"). *)
Definition add (m : ref) (children : list ref) : list ref := children ++ [m].
Definition remove (m : ref) (children : list ref) : list ref :=
  filter (fun c => c <> m) children.
End THREE.

(** ** The cannon-es objects the programs touch *)

Module CANNON.
Inductive Shape :=
| Plane
| Sphere (radius : R)
| Box (halfExtents : Vec3.t)
| Cylinder (radiusTop radiusBottom height : R) (numSegments : nat).

(** The shape constructors of cannon-es, which is not part of the
    repository.  [new CANNON.Sphere(radius)] throws "The sphere radius
    cannot be negative." for a negative radius, and
    [new CANNON.Cylinder(radiusTop, radiusBottom, height, numSegments)]
    throws for a negative top or bottom radius; [None] is that throw.
    [new CANNON.Box(halfExtents)] checks nothing. *)
Definition newSphere (radius : R) : option Shape :=
  if Rlt_dec radius 0 then None else Some (Sphere radius).

Definition newCylinder (radiusTop radiusBottom height : R) (numSegments : nat)
  : option Shape :=
  if Rlt_dec radiusTop 0 then None
  else if Rlt_dec radiusBottom 0 then None
  else Some (Cylinder radiusTop radiusBottom height numSegments).

(** The functions of the repository that are ever registered as event
    listeners; a listener is identified by the function it is. *)
Inductive Listener := playHitSound_fn.

#[global] Instance Listener_eq_dec : EqDecision Listener.
Proof. solve_decision. Defined.

Record Body := mkBody {
  mass : R;
  position : Vec3.t;
  quaternion : Quaternion.t;
  velocity : Vec3.t;
  angularVelocity : Vec3.t;
  shapes : list Shape;
  material : option string;
  listeners : list (string * Listener)
}.

(** [new CANNON.Body({ mass, position, shape, material })]: at rest,
    unrotated, no listeners. *)
Definition newBody (m : R) (p : Vec3.t) (s : list Shape) (mat : option string) : Body :=
  mkBody m p Quaternion.identity (Vec3.mk 0 0 0) (Vec3.mk 0 0 0) s mat [].

Definition set_mass (m : R) (b : Body) : Body :=
  mkBody m (position b) (quaternion b) (velocity b) (angularVelocity b)
         (shapes b) (material b) (listeners b).
Definition set_position (p : Vec3.t) (b : Body) : Body :=
  mkBody (mass b) p (quaternion b) (velocity b) (angularVelocity b)
         (shapes b) (material b) (listeners b).
Definition set_quaternion (q : Quaternion.t) (b : Body) : Body :=
  mkBody (mass b) (position b) q (velocity b) (angularVelocity b)
         (shapes b) (material b) (listeners b).
Definition set_velocity (v : Vec3.t) (b : Body) : Body :=
  mkBody (mass b) (position b) (quaternion b) v (angularVelocity b)
         (shapes b) (material b) (listeners b).
Definition set_angularVelocity (v : Vec3.t) (b : Body) : Body :=
  mkBody (mass b) (position b) (quaternion b) (velocity b) v
         (shapes b) (material b) (listeners b).
Definition set_listeners (l : list (string * Listener)) (b : Body) : Body :=
  mkBody (mass b) (position b) (quaternion b) (velocity b) (angularVelocity b)
         (shapes b) (material b) l.

(** [body.addShape(shape)] *)
Definition addShape (s : Shape) (b : Body) : Body :=
  mkBody (mass b) (position b) (quaternion b) (velocity b) (angularVelocity b)
         (shapes b ++ [s]) (material b) (listeners b).

(** Modelled from the spec: the event-target interface of cannon-es is
    not part of the repository.  A body carries the listeners
    registered on it, each under an event type (section 4.1:
    "Listeners are per-body"); registering adds the listener,
    unregistering removes it (section 4.5: "remove its collision
    listener"). *)
Definition addEventListener (type : string) (l : Listener) (b : Body) : Body :=
  set_listeners (listeners b ++ [(type, l)]) b.
Definition removeEventListener (type : string) (l : Listener) (b : Body) : Body :=
  set_listeners (filter (fun r => r <> (type, l)) (listeners b)) b.

(** The collision event handed to a listener: the body it is
    dispatched on and what [contact.getImpactVelocityAlongNormal()]
    returns for its contact. *)
Record CollideEvent := mkCollide {
  target : ref;
  impactVelocityAlongNormal : R
}.

Record World := mkWorld {
  bodies : list ref;
  gravity : Vec3.t;
  allowSleep : bool;
  accumulator : R;
  integrated : list R
}.

(** [new CANNON.World()] *)
Definition newWorld : World := mkWorld [] (Vec3.mk 0 0 0) false 0 [].

Definition set_bodies (l : list ref) (w : World) : World :=
  mkWorld l (gravity w) (allowSleep w) (accumulator w) (integrated w).
Definition set_gravity (g : Vec3.t) (w : World) : World :=
  mkWorld (bodies w) g (allowSleep w) (accumulator w) (integrated w).
Definition set_allowSleep (a : bool) (w : World) : World :=
  mkWorld (bodies w) (gravity w) a (accumulator w) (integrated w).
Definition set_accumulator (a : R) (w : World) : World :=
  mkWorld (bodies w) (gravity w) (allowSleep w) a (integrated w).

(** Modelled from the spec: [World.addBody] and [World.removeBody] of
    cannon-es are not part of the repository.  Section 4.1:
    "[addBody(body)]: registers a RigidBody for integration";
    "[removeBody(body)]: deregisters a RigidBody; no-op if absent". *)
Definition addBody (b : ref) (w : World) : World :=
  set_bodies (bodies w ++ [b]) w.
Definition removeBody (b : ref) (w : World) : World :=
  set_bodies (filter (fun c => c <> b) (bodies w)) w.

(** One fixed-size sub-step has been integrated: the elapsed time it
    covers leaves the accumulator and its size is entered in the log
    [integrated] (oldest first). *)
Definition consume (fixedDelta : R) (w : World) : World :=
  mkWorld (bodies w) (gravity w) (allowSleep w)
          (accumulator w - fixedDelta) (integrated w ++ [fixedDelta]).

(** Modelled from the spec: [World.step] of cannon-es is not part of
    the repository.  Section 4.1: "[step(fixedDelta, elapsedDelta,
    maxSubSteps)]: advances simulation time by [elapsedDelta] seconds
    using internal fixed sub-steps of [fixedDelta], capped at
    [maxSubSteps] sub-steps per call".  The elapsed time is added to
    the accumulator; while a whole [fixedDelta] is available and the
    budget of sub-steps is not used up, one sub-step is integrated.
    [P] is the part of the program state a sub-step acts on and
    [internalStep] the effect of one sub-step on it. *)
Section Step.
Context {P : Type} (internalStep : R -> World -> P -> P).

Fixpoint subSteps (fixedDelta : R) (budget : nat) (w : World) (p : P) : World * P :=
  match budget with
  | O => (w, p)
  | S budget' =>
      if Rle_dec fixedDelta (accumulator w)
      then subSteps fixedDelta budget' (consume fixedDelta w) (internalStep fixedDelta w p)
      else (w, p)
  end.

Definition step (fixedDelta elapsedDelta : R) (maxSubSteps : nat)
           (w : World) (p : P) : World * P :=
  subSteps fixedDelta maxSubSteps
           (set_accumulator (accumulator w + elapsedDelta) w) p.

(** [k] sub-steps of size [fixedDelta] in a row, unconditionally: the
    yardstick a call of [step] is measured against. *)
Fixpoint advance (fixedDelta : R) (k : nat) (w : World) (p : P) : World * P :=
  match k with
  | O => (w, p)
  | S k' => advance fixedDelta k' (consume fixedDelta w) (internalStep fixedDelta w p)
  end.
End Step.
End CANNON.

(** ** What lies outside the repository *)

(** The rigid-body dynamics of cannon-es and the browser's random
    source.  [integrate dt w bodies] is the effect of one sub-step of
    size [dt] on the bodies, together with the collision events it
    emits; [updateMassProperties] recomputes the mass-derived
    quantities of a body; [Math_random n] is the value of the [n]-th
    call of [Math.random()]. *)
Class Host := {
  integrate : R -> CANNON.World -> gmap ref CANNON.Body ->
              gmap ref CANNON.Body * list CANNON.CollideEvent;
  updateMassProperties : CANNON.Body -> CANNON.Body;
  Math_random : nat -> R
}.

(** A host whose engine moves bodies but neither creates nor destroys
    them. *)
Definition keepsBodies (H : Host) : Prop :=
  forall (dt : R) (w : CANNON.World) (bs : gmap ref CANNON.Body),
    dom (integrate dt w bs).1 = dom bs.

(** A host whose random source stays within [0, 1), as [Math.random()]
    does. *)
Definition unitRandom (H : Host) : Prop :=
  forall n : nat, 0 <= Math_random n < 1.

(** ** What both programs share *)

(** An entry of [objectsToUpdate]: the object [{ mesh, body }]. *)
Record TrackedPair := mkPair { mesh : ref; body : ref }.

(** The body of the loop [for (const object of objectsToUpdate)] of
    [tick]: the pose of the body is copied onto the mesh. *)
Definition syncObject (bodies : gmap ref CANNON.Body)
           (meshes : gmap ref THREE.Mesh) (object : TrackedPair) : gmap ref THREE.Mesh :=
  match bodies !! body object with
  | Some b =>
      alter (fun m => THREE.set_quaternion (CANNON.quaternion b)
                        (THREE.set_position (CANNON.position b) m))
            (mesh object) meshes
  | None => meshes
  end.

(** [array.splice(start, deleteCount)], the array that is left. *)
Definition splice {A} (start deleteCount : nat) (l : list A) : list A :=
  firstn start l ++ skipn (start + deleteCount) l.

(** ** [src/script.js]: the spawn sandbox *)

Module Script.
Import CANNON.

(** The [Audio] element, reduced to what [playHitSound] touches;
    [plays] counts the calls of [play()]. *)
Record Audio := mkAudio {
  volume : R;
  currentTime : R;
  paused : bool;
  plays : nat
}.

(** The module-level state of the script: the scene graph, the physics
    world, the stores of the objects allocated so far, the registry
    [objectsToUpdate], the sound, the clock reading of the previous
    frame and the number of calls of [Math.random()] made so far. *)
Record State := mkState {
  scene : list ref;
  world : World;
  meshes : gmap ref THREE.Mesh;
  bodies : gmap ref Body;
  objects : gmap ref Vec3.t;
  objectsToUpdate : list TrackedPair;
  hitSound : Audio;
  oldElapsedTime : R;
  randomCalls : nat
}.

Definition set_scene (v : list ref) (st : State) : State :=
  mkState v (world st) (meshes st) (bodies st) (objects st)
          (objectsToUpdate st) (hitSound st) (oldElapsedTime st) (randomCalls st).
Definition set_world (v : World) (st : State) : State :=
  mkState (scene st) v (meshes st) (bodies st) (objects st)
          (objectsToUpdate st) (hitSound st) (oldElapsedTime st) (randomCalls st).
Definition set_meshes (v : gmap ref THREE.Mesh) (st : State) : State :=
  mkState (scene st) (world st) v (bodies st) (objects st)
          (objectsToUpdate st) (hitSound st) (oldElapsedTime st) (randomCalls st).
Definition set_bodies (v : gmap ref Body) (st : State) : State :=
  mkState (scene st) (world st) (meshes st) v (objects st)
          (objectsToUpdate st) (hitSound st) (oldElapsedTime st) (randomCalls st).
Definition set_objects (v : gmap ref Vec3.t) (st : State) : State :=
  mkState (scene st) (world st) (meshes st) (bodies st) v
          (objectsToUpdate st) (hitSound st) (oldElapsedTime st) (randomCalls st).
Definition set_objectsToUpdate (v : list TrackedPair) (st : State) : State :=
  mkState (scene st) (world st) (meshes st) (bodies st) (objects st)
          v (hitSound st) (oldElapsedTime st) (randomCalls st).
Definition set_hitSound (v : Audio) (st : State) : State :=
  mkState (scene st) (world st) (meshes st) (bodies st) (objects st)
          (objectsToUpdate st) v (oldElapsedTime st) (randomCalls st).
Definition set_oldElapsedTime (v : R) (st : State) : State :=
  mkState (scene st) (world st) (meshes st) (bodies st) (objects st)
          (objectsToUpdate st) (hitSound st) v (randomCalls st).
Definition set_randomCalls (v : nat) (st : State) : State :=
  mkState (scene st) (world st) (meshes st) (bodies st) (objects st)
          (objectsToUpdate st) (hitSound st) (oldElapsedTime st) v.

(** [new]: the object enters its store under a fresh reference. *)
Definition new_mesh (m : THREE.Mesh) (st : State) : ref * State :=
  let r := fresh (dom (meshes st)) in (r, set_meshes (<[r := m]> (meshes st)) st).
Definition new_body (b : Body) (st : State) : ref * State :=
  let r := fresh (dom (bodies st)) in (r, set_bodies (<[r := b]> (bodies st)) st).
Definition new_object (v : Vec3.t) (st : State) : ref * State :=
  let r := fresh (dom (objects st)) in (r, set_objects (<[r := v]> (objects st)) st).

(** [Math.random()] *)
Definition random `{Host} (st : State) : R * State :=
  (Math_random (randomCalls st), set_randomCalls (S (randomCalls st)) st).

(** [const defaultMaterial = new CANNON.Material('default')] *)
Definition defaultMaterial : option string := Some "default"%string.

(** [const hitSound = new Audio('/sounds/hit.mp3')] *)
Definition newAudio : Audio := mkAudio 1 0 true 0.

(** [const floorBody]: the first body ever allocated. *)
Definition floorBody : ref := fresh (dom (∅ : gmap ref Body)).

(** The state once the top level of the script has run, before the
    first [tick].  The grid helper, the lights and the camera are
    never removed from the scene and are left out of [scene]. *)
Definition init : State :=
  let world := newWorld in
  let world := set_allowSleep true world in
  let world := set_gravity (Vec3.mk 0 (-9.82) 0) world in
  let floor := newBody 0 (Vec3.mk 0 0 0) [] None in
  let floor := set_mass 0 floor in
  let floor := addShape Plane floor in
  let floor := set_quaternion
                 (Quaternion.setFromAxisAngle (Vec3.mk (-1) 0 0) (PI * 0.5)) floor in
  let world := addBody floorBody world in
  mkState [] world ∅ {[ floorBody := floor ]} ∅ [] newAudio 0 0.

(** [const playHitSound = (collision) => ...] *)
Definition playHitSound `{Host} (collision : CollideEvent) (st : State) : State :=
  let impactStrength := impactVelocityAlongNormal collision in
  if Rgt_dec impactStrength 1.5 then
    let '(r, st) := random st in
    let sound := hitSound st in
    let sound := mkAudio r (currentTime sound) (paused sound) (plays sound) in
    let sound := mkAudio (volume sound) 0 (paused sound) (plays sound) in
    let sound := mkAudio (volume sound) (currentTime sound) false (S (plays sound)) in
    set_hitSound sound st
  else st.

(** The function a listener stands for. *)
Definition call `{Host} (l : Listener) (e : CollideEvent) (st : State) : State :=
  match l with
  | playHitSound_fn => playHitSound e st
  end.

(** Modelled from the spec: event dispatch of cannon-es is not part of
    the repository.  Section 4.1: "a listener registered on a body
    fires once per qualifying contact": the event is handed to every
    listener registered under its type on the body it targets. *)
Definition dispatchEvent `{Host} (type : string) (e : CollideEvent) (st : State) : State :=
  match bodies st !! target e with
  | Some b =>
      fold_left (fun s r => if decide (r.1 = type) then call r.2 e s else s)
                (listeners b) st
  | None => st
  end.

(** One sub-step of the world: the engine moves the bodies, then the
    collisions it found are dispatched. *)
Definition internalStep `{Host} (dt : R) (w : World) (st : State) : State :=
  let '(moved, collisions) := integrate dt w (bodies st) in
  fold_left (fun s e => dispatchEvent "collide" e s) collisions (set_bodies moved st).

(** How a call ends: it returns, or it throws; either way it leaves a
    state behind. *)
Inductive Completion :=
| Returns (st : State)
| Throws (st : State).

(** The state a call leaves behind. *)
Definition after (c : Completion) : State :=
  match c with
  | Returns st => st
  | Throws st => st
  end.

(** [const createSphere = (radius, position) => ...].  [position] is a
    reference to the caller's object.  The call throws where it reads a
    field of something that is no object (the [TypeError] of
    [mesh.position.copy(position)]) and where the constructor of the
    shape throws; what was done before the throw stays done. *)
Definition createSphere (radius : R) (position : ref) (st : State) : Completion :=
  let mesh := THREE.newMesh (THREE.SphereGeometry 1 20 20) in
  let mesh := THREE.set_castShadow true mesh in
  let mesh := THREE.set_scale (Vec3.mk radius radius radius) mesh in
  match objects st !! position with
  | None => Throws st
  | Some p =>
      let mesh := THREE.set_position p mesh in
      let '(mesh, st) := new_mesh mesh st in
      let st := set_scene (THREE.add mesh (scene st)) st in
      match newSphere radius with
      | None => Throws st
      | Some shape =>
          let body := newBody 1 (Vec3.mk 0 3 0) [shape] defaultMaterial in
          let body := set_position p body in
          let body := addEventListener "collide" playHitSound_fn body in
          let '(body, st) := new_body body st in
          let st := set_world (addBody body (world st)) st in
          Returns (set_objectsToUpdate (objectsToUpdate st ++ [mkPair mesh body]) st)
      end
  end.

(** [const createBox = (width, height, depth, position) => ...] *)
Definition createBox (width height depth : R) (position : ref) (st : State)
  : Completion :=
  let mesh := THREE.newMesh (THREE.BoxGeometry 1 1 1) in
  let mesh := THREE.set_scale (Vec3.mk width height depth) mesh in
  let mesh := THREE.set_castShadow true mesh in
  match objects st !! position with
  | None => Throws st
  | Some p =>
      let mesh := THREE.set_position p mesh in
      let '(mesh, st) := new_mesh mesh st in
      let st := set_scene (THREE.add mesh (scene st)) st in
      let shape := Box (Vec3.mk (width * 0.5) (height * 0.5) (depth * 0.5)) in
      let body := newBody 1 (Vec3.mk 0 3 0) [shape] defaultMaterial in
      let body := set_position p body in
      let body := addEventListener "collide" playHitSound_fn body in
      let '(body, st) := new_body body st in
      let st := set_world (addBody body (world st)) st in
      Returns (set_objectsToUpdate (objectsToUpdate st ++ [mkPair mesh body]) st)
  end.

(** [const createCylinder = (radius, height, position) => ...] *)
Definition createCylinder (radius height : R) (position : ref) (st : State)
  : Completion :=
  let adjustedRadius := radius * 0.2 in
  let adjustedHeight := height * 0.5 in
  match objects st !! position with
  | None => Throws st
  | Some p =>
      let p := Vec3.mk (Vec3.x p) (Vec3.y p + adjustedHeight / 2) (Vec3.z p) in
      let st := set_objects (<[position := p]> (objects st)) st in
      let cylinderGeometry :=
        THREE.CylinderGeometry adjustedRadius adjustedRadius adjustedHeight 32 in
      let cylinderMesh := THREE.newMesh cylinderGeometry in
      let cylinderMesh := THREE.set_castShadow true cylinderMesh in
      let cylinderMesh := THREE.set_position p cylinderMesh in
      let '(cylinderMesh, st) := new_mesh cylinderMesh st in
      let st := set_scene (THREE.add cylinderMesh (scene st)) st in
      match newCylinder adjustedRadius adjustedRadius adjustedHeight 32 with
      | None => Throws st
      | Some shape =>
          let quaternion := Quaternion.setFromAxisAngle (Vec3.mk 1 0 0) (PI / 2) in
          let body := newBody 1 (Vec3.mk (Vec3.x p) (Vec3.y p) (Vec3.z p)) [shape]
                              defaultMaterial in
          let body := set_quaternion quaternion body in
          let '(body, st) := new_body body st in
          let st := set_world (addBody body (world st)) st in
          Returns (set_objectsToUpdate
                     (objectsToUpdate st ++ [mkPair cylinderMesh body]) st)
      end
  end.

(** [debugObject.createSphere], [debugObject.createBox] and
    [debugObject.createCylinder]: the buttons of the panel.  The
    arguments are evaluated left to right. *)
Definition debugObject_createSphere `{Host} (st : State) : Completion :=
  let '(r0, st) := random st in
  let '(r1, st) := random st in
  let '(r2, st) := random st in
  let '(position, st) := new_object (Vec3.mk ((r1 - 0.5) * 3) 3 ((r2 - 0.5) * 3)) st in
  createSphere (r0 * 0.5) position st.

Definition debugObject_createBox `{Host} (st : State) : Completion :=
  let '(r0, st) := random st in
  let '(r1, st) := random st in
  let '(r2, st) := random st in
  let '(r3, st) := random st in
  let '(r4, st) := random st in
  let '(position, st) := new_object (Vec3.mk ((r3 - 0.5) * 3) 3 ((r4 - 0.5) * 3)) st in
  createBox r0 r1 r2 position st.

Definition debugObject_createCylinder `{Host} (st : State) : Completion :=
  let '(r0, st) := random st in
  let '(r1, st) := random st in
  let '(r2, st) := random st in
  let '(r3, st) := random st in
  let '(position, st) := new_object (Vec3.mk ((r2 - 0.5) * 3) 3 ((r3 - 0.5) * 3)) st in
  createCylinder (r0 * 0.5 + 0.5) (r1 * 1.5 + 0.5) position st.

(** The body of the loop of [debugObject.reset]. *)
Definition resetObject (st : State) (object : TrackedPair) : State :=
  let st := set_bodies
              (alter (removeEventListener "collide" playHitSound_fn)
                     (body object) (bodies st)) st in
  let st := set_world (removeBody (body object) (world st)) st in
  set_scene (THREE.remove (mesh object) (scene st)) st.

(** [debugObject.reset = () => ...] *)
Definition debugObject_reset (st : State) : State :=
  let st := fold_left resetObject (objectsToUpdate st) st in
  set_objectsToUpdate
    (splice 0 (length (objectsToUpdate st)) (objectsToUpdate st)) st.

(** [const tick = () => ...], for the clock reading [elapsedTime].
    Camera controls and rendering are presentation only; the call of
    [requestAnimationFrame] is the host calling [tick] again. *)
Definition tick `{Host} (elapsedTime : R) (st : State) : State :=
  let deltaTime := elapsedTime - oldElapsedTime st in
  let st := set_oldElapsedTime elapsedTime st in
  let '(w, st) := step internalStep (1 / 60) deltaTime 3 (world st) st in
  let st := set_world w st in
  set_meshes (fold_left (syncObject (bodies st)) (objectsToUpdate st) (meshes st)) st.
(** What the host can do to the running sandbox: deliver a frame, or
    press a button of the panel ([gui.add(debugObject, ...)]). *)
Inductive Event :=
| Frame (elapsedTime : R)
| ClickCreateSphere
| ClickCreateBox
| ClickCreateCylinder
| ClickReset.

(** An event leaves behind the state its handler leaves behind, whether
    the handler returns or throws. *)
Definition handle `{Host} (st : State) (e : Event) : State :=
  match e with
  | Frame elapsedTime => tick elapsedTime st
  | ClickCreateSphere => after (debugObject_createSphere st)
  | ClickCreateBox => after (debugObject_createBox st)
  | ClickCreateCylinder => after (debugObject_createCylinder st)
  | ClickReset => debugObject_reset st
  end.

Definition run `{Host} (events : list Event) (st : State) : State :=
  fold_left handle events st.

(** The registry, the scene and the world tell the same story: the
    scene holds the meshes of the tracked pairs, in order, the world
    holds the floor and then their bodies, no mesh and no body is
    tracked twice, the floor is tracked by no pair, and every object
    mentioned is allocated. *)
Definition consistent (st : State) : Prop :=
  scene st = mesh <$> objectsToUpdate st /\
  CANNON.bodies (world st) = floorBody :: (body <$> objectsToUpdate st) /\
  NoDup (mesh <$> objectsToUpdate st) /\
  NoDup (floorBody :: (body <$> objectsToUpdate st)) /\
  (forall r, r ∈ mesh <$> objectsToUpdate st -> is_Some (meshes st !! r)) /\
  (forall r, r ∈ floorBody :: (body <$> objectsToUpdate st) ->
             is_Some (bodies st !! r)).
End Script.

(** ** The launch variant *)

Module Launch.
(** [const settings = { angle, velocity, mass, launchHeight,
    airResistance, reset, launch }]: the data fields. *)
Record Settings := mkSettings {
  angle : R;
  velocity : R;
  mass : R;
  launchHeight : R;
  airResistance : bool
}.

Record State := mkState {
  settings : Settings;
  scene : list ref;
  world : CANNON.World;
  meshes : gmap ref THREE.Mesh;
  bodies : gmap ref CANNON.Body;
  objectsToUpdate : list TrackedPair;
  oldElapsedTime : R
}.

Definition set_settings (v : Settings) (st : State) : State :=
  mkState v (scene st) (world st) (meshes st) (bodies st)
          (objectsToUpdate st) (oldElapsedTime st).
Definition set_world (v : CANNON.World) (st : State) : State :=
  mkState (settings st) (scene st) v (meshes st) (bodies st)
          (objectsToUpdate st) (oldElapsedTime st).
Definition set_meshes (v : gmap ref THREE.Mesh) (st : State) : State :=
  mkState (settings st) (scene st) (world st) v (bodies st)
          (objectsToUpdate st) (oldElapsedTime st).
Definition set_bodies (v : gmap ref CANNON.Body) (st : State) : State :=
  mkState (settings st) (scene st) (world st) (meshes st) v
          (objectsToUpdate st) (oldElapsedTime st).
Definition set_oldElapsedTime (v : R) (st : State) : State :=
  mkState (settings st) (scene st) (world st) (meshes st) (bodies st)
          (objectsToUpdate st) v.

(** The objects the top level allocates, in allocation order: the
    meshes [ball] and [ground], the bodies [groundBody] and
    [ballBody]. *)
Definition ball : ref := 0%nat.
Definition ground : ref := 1%nat.
Definition groundBody : ref := 0%nat.
Definition ballBody : ref := 1%nat.

Definition defaultMaterial : option string := Some "default"%string.

(** The state once the top level has run, before the first [tick].
    The grid helper, the lights and the camera are left out of
    [scene]. *)
Definition init : State :=
  let ballMesh := THREE.newMesh (THREE.SphereGeometry 0.25 16 16) in
  let ballMesh := THREE.set_position (Vec3.mk (-7) 1.25 0) ballMesh in
  let groundMesh := THREE.newMesh (THREE.PlaneGeometry 15 5) in
  let groundMesh :=
    THREE.set_quaternion
      (Quaternion.setFromAxisAngle (Vec3.mk 1 0 0) (- PI * 0.5)) groundMesh in
  let groundMesh := THREE.set_receiveShadow true groundMesh in
  let world := CANNON.newWorld in
  let world := CANNON.set_allowSleep true world in
  let world := CANNON.set_gravity (Vec3.mk 0 (-9.82) 0) world in
  let groundB := CANNON.newBody 0 (Vec3.mk 0 (-0.25) 0) [] None in
  let groundB := CANNON.addShape (CANNON.Box (Vec3.mk 7.5 0.25 2.5)) groundB in
  let world := CANNON.addBody groundBody world in
  let ballB := CANNON.newBody 1 (Vec3.mk 0 0 0) [] defaultMaterial in
  let ballB := CANNON.addShape (CANNON.Sphere 0.25) ballB in
  let ballB := CANNON.set_position (Vec3.mk (-7) 1.25 0) ballB in
  let world := CANNON.addBody ballBody world in
  mkState (mkSettings 45 6 1 1 true)
          [ball; ground] world
          (<[ground := groundMesh]> {[ ball := ballMesh ]})
          (<[ballBody := ballB]> {[ groundBody := groundB ]})
          [mkPair ball ballBody] 0.

(** [settings.reset] *)
Definition reset (st : State) : State :=
  set_bodies
    (alter (fun b =>
              let b := CANNON.set_velocity (Vec3.mk 0 0 0) b in
              let b := CANNON.set_angularVelocity (Vec3.mk 0 0 0) b in
              CANNON.set_position
                (Vec3.mk (-7) (launchHeight (settings st)) 0) b)
           ballBody (bodies st)) st.

(** [settings.launch] *)
Definition launch `{Host} (st : State) : State :=
  set_bodies
    (alter (fun b =>
              let b := CANNON.set_mass (mass (settings st)) b in
              let b := updateMassProperties b in
              let angleInRadians := (angle (settings st) * PI) / 180 in
              let speed := velocity (settings st) in
              let adjustedSpeed := speed * (1 / sqrt (mass (settings st))) in
              CANNON.set_velocity
                (Vec3.mk (adjustedSpeed * cos angleInRadians)
                         (adjustedSpeed * sin angleInRadians)
                         0) b)
           ballBody (bodies st)) st.

(** One sub-step of the world.  No listener is registered on any body
    of this program, so the collisions found go to nobody. *)
Definition internalStep `{Host} (dt : R) (w : CANNON.World)
           (bs : gmap ref CANNON.Body) : gmap ref CANNON.Body :=
  (integrate dt w bs).1.

(** [const tick = () => ...], for the clock reading [elapsedTime]. *)
Definition tick `{Host} (elapsedTime : R) (st : State) : State :=
  let deltaTime := elapsedTime - oldElapsedTime st in
  let st := set_oldElapsedTime elapsedTime st in
  let '(w, bs) := CANNON.step internalStep (1 / 80) deltaTime 3
                              (world st) (bodies st) in
  let st := set_bodies bs (set_world w st) in
  set_meshes (fold_left (syncObject (bodies st)) (objectsToUpdate st) (meshes st)) st.

(** What the host can do to the running program: deliver a frame, or
    operate a control of the panel ([gui.add(settings, ...)]). *)
Inductive Event :=
| Frame (elapsedTime : R)
| ClickReset
| ClickLaunch
| SetAngle (v : R)
| SetVelocity (v : R)
| SetMass (v : R)
| SetLaunchHeight (v : R)
| SetAirResistance (v : bool).

Definition handle `{Host} (st : State) (e : Event) : State :=
  let s := settings st in
  match e with
  | Frame elapsedTime => tick elapsedTime st
  | ClickReset => reset st
  | ClickLaunch => launch st
  | SetAngle v =>
      set_settings (mkSettings v (velocity s) (mass s) (launchHeight s) (airResistance s)) st
  | SetVelocity v =>
      set_settings (mkSettings (angle s) v (mass s) (launchHeight s) (airResistance s)) st
  | SetMass v =>
      set_settings (mkSettings (angle s) (velocity s) v (launchHeight s) (airResistance s)) st
  | SetLaunchHeight v =>
      set_settings (mkSettings (angle s) (velocity s) (mass s) v (airResistance s)) st
  | SetAirResistance v =>
      set_settings (mkSettings (angle s) (velocity s) (mass s) (launchHeight s) v) st
  end.

Definition run `{Host} (events : list Event) (st : State) : State :=
  fold_left handle events st.

(** Two events that are the same up to the value given to the
    air-resistance toggle. *)
Definition sameButAir (e1 e2 : Event) : Prop :=
  match e1, e2 with
  | SetAirResistance _, SetAirResistance _ => True
  | _, _ => e1 = e2
  end.

(** The state with the air-resistance setting blanked. *)
Definition eraseAir (st : State) : State :=
  let s := settings st in
  set_settings (mkSettings (angle s) (velocity s) (mass s) (launchHeight s) false) st.
End Launch.

(** ** A sample host

    Bodies with a positive mass fall freely (semi-implicit Euler), no
    collision is ever reported, mass properties need no update and the
    random source is constant.  It serves to run the programs on
    concrete inputs. *)
Definition freeFall : Host := {|
  integrate dt w bs :=
    (fmap (fun b =>
             if Rgt_dec (CANNON.mass b) 0 then
               let g := CANNON.gravity w in
               let v := CANNON.velocity b in
               let v := Vec3.mk (Vec3.x v + Vec3.x g * dt)
                                (Vec3.y v + Vec3.y g * dt)
                                (Vec3.z v + Vec3.z g * dt) in
               let p := CANNON.position b in
               let p := Vec3.mk (Vec3.x p + Vec3.x v * dt)
                                (Vec3.y p + Vec3.y v * dt)
                                (Vec3.z p + Vec3.z v * dt) in
               CANNON.set_position p (CANNON.set_velocity v b)
             else b) bs, []);
  updateMassProperties b := b;
  Math_random _ := 0.5
|}.

(** A state of the sandbox in which the caller's position object
    [{ x: 0, y: 3, z: 0 }] has been allocated. *)
Definition withPosition : ref * Script.State :=
  Script.new_object (Vec3.mk 0 3 0) Script.init.

(** A sandbox in which a sphere and then a cylinder have been spawned
    from that position object. *)
Definition afterSpawns : Script.State :=
  Script.after
    (Script.createCylinder 1 2 withPosition.1
       (Script.after (Script.createSphere 0.5 withPosition.1 withPosition.2))).

(** Two sessions of the launch variant that agree on everything but the
    air-resistance toggle. *)
Definition airOn : list Launch.Event :=
  [Launch.SetAirResistance true; Launch.SetAngle 30; Launch.ClickLaunch;
   Launch.Frame 1; Launch.SetAirResistance false; Launch.Frame 2;
   Launch.ClickReset].
Definition airOff : list Launch.Event :=
  [Launch.SetAirResistance false; Launch.SetAngle 30; Launch.ClickLaunch;
   Launch.Frame 1; Launch.SetAirResistance false; Launch.Frame 2;
   Launch.ClickReset].

(** A session of the sandbox: spawns, frames and a reset. *)
Definition session : list Script.Event :=
  [Script.ClickCreateSphere; Script.ClickCreateCylinder; Script.Frame 1;
   Script.ClickReset; Script.ClickCreateBox; Script.Frame 2].

(** * Properties *)

(** ** The sub-step cap *)

Section StepFacts.
Context {P : Type} (internalStep : R -> CANNON.World -> P -> P).

(** [k] sub-steps in a row enter [k] times their size in the log. *)
Lemma advance_integrated (fixedDelta : R) (k : nat) :
  forall (w : CANNON.World) (p : P),
    CANNON.integrated (CANNON.advance internalStep fixedDelta k w p).1
    = CANNON.integrated w ++ repeat fixedDelta k.
Proof.
  induction k as [|k IH]; intros w p; simpl.
  - now rewrite app_nil_r.
  - rewrite IH. simpl. now rewrite <- app_assoc.
Qed.

(** The loop of [step] amounts to [k] sub-steps in a row for some [k]
    within the budget, whatever the accumulator holds; it stops short
    of the budget only when less than one [fixedDelta] is left. *)
Lemma subSteps_advance (fixedDelta : R) (budget : nat) :
  forall (w : CANNON.World) (p : P),
  exists k : nat,
    (k <= budget)%nat /\
    CANNON.subSteps internalStep fixedDelta budget w p
    = CANNON.advance internalStep fixedDelta k w p /\
    ((k < budget)%nat ->
     CANNON.accumulator (CANNON.advance internalStep fixedDelta k w p).1
     < fixedDelta).
Proof.
  induction budget as [|budget IH]; intros w p; simpl.
  - exists 0%nat. split; [lia|]. split; [reflexivity|lia].
  - destruct (Rle_dec fixedDelta (CANNON.accumulator w)) as [Hge|Hlt].
    + destruct (IH (CANNON.consume fixedDelta w) (internalStep fixedDelta w p))
        as (k & Hk & Heq & Hstop).
      exists (S k). split; [lia|]. split; [exact Heq|].
      intros Hlt. apply Hstop. lia.
    + exists 0%nat. split; [lia|]. split; [reflexivity|].
      intros _. simpl. lra.
Qed.

Lemma step_advance (fixedDelta elapsedDelta : R) (maxSubSteps : nat)
      (w : CANNON.World) (p : P) :
  exists k : nat,
    (k <= maxSubSteps)%nat /\
    CANNON.step internalStep fixedDelta elapsedDelta maxSubSteps w p
    = CANNON.advance internalStep fixedDelta k
        (CANNON.set_accumulator (CANNON.accumulator w + elapsedDelta) w) p.
Proof.
  unfold CANNON.step.
  destruct (subSteps_advance fixedDelta maxSubSteps
              (CANNON.set_accumulator (CANNON.accumulator w + elapsedDelta) w) p)
    as (k & Hk & Heq & _).
  exists k. split; [exact Hk | exact Heq].
Qed.

Lemma step_integrated (fixedDelta elapsedDelta : R) (maxSubSteps : nat)
      (w : CANNON.World) (p : P) :
  exists k : nat,
    (k <= maxSubSteps)%nat /\
    CANNON.integrated
      (CANNON.step internalStep fixedDelta elapsedDelta maxSubSteps w p).1
    = CANNON.integrated w ++ repeat fixedDelta k.
Proof.
  destruct (step_advance fixedDelta elapsedDelta maxSubSteps w p) as (k & Hk & Heq).
  exists k. split; [exact Hk|]. rewrite Heq, advance_integrated. reflexivity.
Qed.

End StepFacts.

Section StepCount.
Context {P : Type} (internalStep : R -> CANNON.World -> P -> P).

(** Each sub-step takes its size out of the accumulator. *)
Lemma advance_accumulator (fixedDelta : R) (k : nat) :
  forall (w : CANNON.World) (p : P),
    CANNON.accumulator (CANNON.advance internalStep fixedDelta k w p).1
    = CANNON.accumulator w - INR k * fixedDelta.
Proof.
  induction k as [|k IH]; intros w p.
  - simpl. lra.
  - change (CANNON.advance internalStep fixedDelta (S k) w p)
      with (CANNON.advance internalStep fixedDelta k (CANNON.consume fixedDelta w)
              (internalStep fixedDelta w p)).
    rewrite IH, S_INR. simpl. lra.
Qed.

(** The number of sub-steps the loop of [step] takes is settled by the
    accumulator: each one is taken with a whole [fixedDelta] available,
    and the loop stops short of the budget only when less than one
    [fixedDelta] is left. *)
Lemma subSteps_exact (fixedDelta : R) (budget : nat) :
  forall (w : CANNON.World) (p : P),
  exists k : nat,
    (k <= budget)%nat /\
    CANNON.subSteps internalStep fixedDelta budget w p
    = CANNON.advance internalStep fixedDelta k w p /\
    ((k < budget)%nat -> CANNON.accumulator w - INR k * fixedDelta < fixedDelta) /\
    (forall j : nat,
        (j < k)%nat -> fixedDelta <= CANNON.accumulator w - INR j * fixedDelta).
Proof.
  induction budget as [|budget IH]; intros w p.
  - exists 0%nat. split; [lia|]. split; [reflexivity|]. split; intros; lia.
  - simpl. destruct (Rle_dec fixedDelta (CANNON.accumulator w)) as [Hge|Hlt].
    + destruct (IH (CANNON.consume fixedDelta w) (internalStep fixedDelta w p))
        as (k & Hk & Heq & Hstop & Hfull).
      simpl in Hstop, Hfull.
      exists (S k). split; [lia|]. split; [exact Heq|]. split.
      * intros Hlt. rewrite S_INR. specialize (Hstop ltac:(lia)). lra.
      * intros [|j] Hj.
        -- simpl. lra.
        -- rewrite S_INR. specialize (Hfull j ltac:(lia)). lra.
    + exists 0%nat. split; [lia|]. split; [reflexivity|]. split.
      * intros _. simpl. lra.
      * intros j Hj. lia.
Qed.
End StepCount.

Lemma Script_tick_advance `{Host} (elapsedTime : R) (st : Script.State) :
  exists k : nat,
    (k <= 3)%nat /\
    let w0 := CANNON.set_accumulator
                (CANNON.accumulator (Script.world st)
                 + (elapsedTime - Script.oldElapsedTime st)) (Script.world st) in
    let r := CANNON.advance Script.internalStep (1 / 60) k w0
               (Script.set_oldElapsedTime elapsedTime st) in
    Script.tick elapsedTime st
    = Script.set_meshes
        (fold_left (syncObject (Script.bodies r.2)) (Script.objectsToUpdate r.2)
                   (Script.meshes r.2))
        (Script.set_world r.1 r.2) /\
    ((k < 3)%nat -> CANNON.accumulator w0 - INR k * (1 / 60) < 1 / 60) /\
    (forall j : nat,
        (j < k)%nat -> 1 / 60 <= CANNON.accumulator w0 - INR j * (1 / 60)).
Proof.
  destruct (subSteps_exact Script.internalStep (1 / 60) 3
              (CANNON.set_accumulator
                 (CANNON.accumulator (Script.world st)
                  + (elapsedTime - Script.oldElapsedTime st)) (Script.world st))
              (Script.set_oldElapsedTime elapsedTime st))
    as (k & Hk & Heq & Hstop & Hfull).
  exists k. split; [exact Hk|]. cbv zeta.
  split; [|split; [exact Hstop|exact Hfull]].
  unfold Script.tick, CANNON.step. cbv zeta.
  change (Script.oldElapsedTime (Script.set_oldElapsedTime elapsedTime st))
    with elapsedTime.
  change (Script.world (Script.set_oldElapsedTime elapsedTime st))
    with (Script.world st).
  rewrite Heq.
  destruct (CANNON.advance _ _ _ _ _) as [w st1]. reflexivity.
Qed.

Lemma Launch_tick_advance `{Host} (elapsedTime : R) (st : Launch.State) :
  exists k : nat,
    (k <= 3)%nat /\
    let w0 := CANNON.set_accumulator
                (CANNON.accumulator (Launch.world st)
                 + (elapsedTime - Launch.oldElapsedTime st)) (Launch.world st) in
    let r := CANNON.advance Launch.internalStep (1 / 80) k w0 (Launch.bodies st) in
    Launch.tick elapsedTime st
    = Launch.mkState (Launch.settings st) (Launch.scene st) r.1
        (fold_left (syncObject r.2) (Launch.objectsToUpdate st) (Launch.meshes st))
        r.2 (Launch.objectsToUpdate st) elapsedTime /\
    ((k < 3)%nat -> CANNON.accumulator w0 - INR k * (1 / 80) < 1 / 80) /\
    (forall j : nat,
        (j < k)%nat -> 1 / 80 <= CANNON.accumulator w0 - INR j * (1 / 80)).
Proof.
  destruct (subSteps_exact Launch.internalStep (1 / 80) 3
              (CANNON.set_accumulator
                 (CANNON.accumulator (Launch.world st)
                  + (elapsedTime - Launch.oldElapsedTime st)) (Launch.world st))
              (Launch.bodies st))
    as (k & Hk & Heq & Hstop & Hfull).
  exists k. split; [exact Hk|]. cbv zeta.
  split; [|split; [exact Hstop|exact Hfull]].
  unfold Launch.tick, CANNON.step. cbv zeta.
  change (Launch.world (Launch.set_oldElapsedTime elapsedTime st))
    with (Launch.world st).
  change (Launch.bodies (Launch.set_oldElapsedTime elapsedTime st))
    with (Launch.bodies st).
  rewrite Heq.
  destruct (CANNON.advance _ _ _ _ _) as [w bs]. reflexivity.
Qed.

(** C1: whatever the elapsed time handed to [step], the call amounts to
    [k] sub-steps of size [fixedDelta] in a row, for a [k] that is at
    most [maxSubSteps] and is settled by the accumulator: each sub-step
    is taken with a whole [fixedDelta] available and the call stops
    short of [maxSubSteps] only when less than one [fixedDelta] is
    left.  A frame of either program is exactly that: the clock reading
    is stored, the frame delta goes to the accumulator, [k <= 3]
    sub-steps run, each of the fixed size (1/60 in the sandbox, 1/80 in
    the launch variant) and none of the size of the frame delta, and
    the poses are copied. *)
Theorem C1_substeps_capped `{Host} :
  (forall (P : Type) (internalStep : R -> CANNON.World -> P -> P)
          (fixedDelta elapsedDelta : R) (maxSubSteps : nat)
          (w : CANNON.World) (p : P),
      exists k : nat,
        (k <= maxSubSteps)%nat /\
        let w0 := CANNON.set_accumulator (CANNON.accumulator w + elapsedDelta) w in
        CANNON.step internalStep fixedDelta elapsedDelta maxSubSteps w p
        = CANNON.advance internalStep fixedDelta k w0 p /\
        CANNON.integrated
          (CANNON.step internalStep fixedDelta elapsedDelta maxSubSteps w p).1
        = CANNON.integrated w ++ repeat fixedDelta k /\
        ((k < maxSubSteps)%nat ->
         CANNON.accumulator w0 - INR k * fixedDelta < fixedDelta) /\
        (forall j : nat,
            (j < k)%nat -> fixedDelta <= CANNON.accumulator w0 - INR j * fixedDelta))
  /\ (forall (elapsedTime : R) (st : Script.State),
      exists k : nat,
        (k <= 3)%nat /\
        let w0 := CANNON.set_accumulator
                    (CANNON.accumulator (Script.world st)
                     + (elapsedTime - Script.oldElapsedTime st)) (Script.world st) in
        let r := CANNON.advance Script.internalStep (1 / 60) k w0
                   (Script.set_oldElapsedTime elapsedTime st) in
        Script.tick elapsedTime st
        = Script.set_meshes
            (fold_left (syncObject (Script.bodies r.2)) (Script.objectsToUpdate r.2)
                       (Script.meshes r.2))
            (Script.set_world r.1 r.2) /\
        CANNON.integrated (Script.world (Script.tick elapsedTime st))
        = CANNON.integrated (Script.world st) ++ repeat (1 / 60) k /\
        ((k < 3)%nat -> CANNON.accumulator w0 - INR k * (1 / 60) < 1 / 60) /\
        (forall j : nat,
            (j < k)%nat -> 1 / 60 <= CANNON.accumulator w0 - INR j * (1 / 60)))
  /\ (forall (elapsedTime : R) (st : Launch.State),
      exists k : nat,
        (k <= 3)%nat /\
        let w0 := CANNON.set_accumulator
                    (CANNON.accumulator (Launch.world st)
                     + (elapsedTime - Launch.oldElapsedTime st)) (Launch.world st) in
        let r := CANNON.advance Launch.internalStep (1 / 80) k w0 (Launch.bodies st) in
        Launch.tick elapsedTime st
        = Launch.mkState (Launch.settings st) (Launch.scene st) r.1
            (fold_left (syncObject r.2) (Launch.objectsToUpdate st) (Launch.meshes st))
            r.2 (Launch.objectsToUpdate st) elapsedTime /\
        CANNON.integrated (Launch.world (Launch.tick elapsedTime st))
        = CANNON.integrated (Launch.world st) ++ repeat (1 / 80) k /\
        ((k < 3)%nat -> CANNON.accumulator w0 - INR k * (1 / 80) < 1 / 80) /\
        (forall j : nat,
            (j < k)%nat -> 1 / 80 <= CANNON.accumulator w0 - INR j * (1 / 80))).
Proof.
  split; [|split].
  - intros P internalStep fixedDelta elapsedDelta maxSubSteps w p.
    destruct (subSteps_exact internalStep fixedDelta maxSubSteps
                (CANNON.set_accumulator (CANNON.accumulator w + elapsedDelta) w) p)
      as (k & Hk & Heq & Hstop & Hfull).
    exists k. split; [exact Hk|]. cbv zeta. unfold CANNON.step.
    split; [exact Heq|]. split; [|split; [exact Hstop|exact Hfull]].
    rewrite Heq, advance_integrated. reflexivity.
  - intros elapsedTime st.
    destruct (Script_tick_advance elapsedTime st) as (k & Hk & Heq & Hstop & Hfull).
    exists k. split; [exact Hk|]. cbv zeta in *.
    split; [exact Heq|]. split; [|split; [exact Hstop|exact Hfull]].
    rewrite Heq. simpl. rewrite advance_integrated. reflexivity.
  - intros elapsedTime st.
    destruct (Launch_tick_advance elapsedTime st) as (k & Hk & Heq & Hstop & Hfull).
    exists k. split; [exact Hk|]. cbv zeta in *.
    split; [exact Heq|]. split; [|split; [exact Hstop|exact Hfull]].
    rewrite Heq. simpl. rewrite advance_integrated. reflexivity.
Qed.

(** A frame that comes one second after the last one integrates exactly
    three sub-steps of 1/80; a frame that comes a thousandth of a second
    after the last one integrates none. *)
Lemma C1_witness :
  CANNON.integrated (Launch.world (@Launch.tick freeFall 1 Launch.init))
  = [1 / 80; 1 / 80; 1 / 80]
  /\ CANNON.integrated (Launch.world (@Launch.tick freeFall 0.001 Launch.init)) = [].
Proof.
  split.
  - destruct (proj2 (proj2 (@C1_substeps_capped freeFall)) 1 Launch.init)
      as (k & Hk & _ & Hlog & Hstop & _).
    rewrite Hlog. simpl in Hstop |- *.
    destruct k as [|[|[|[|k]]]]; [exfalso..|reflexivity|lia];
      specialize (Hstop ltac:(lia)); simpl in Hstop; lra.
  - destruct (proj2 (proj2 (@C1_substeps_capped freeFall)) 0.001 Launch.init)
      as (k & Hk & _ & Hlog & _ & Hfull).
    rewrite Hlog. simpl in Hfull |- *.
    destruct k as [|k]; [reflexivity|exfalso].
    specialize (Hfull 0%nat ltac:(lia)). simpl in Hfull. lra.
Defined.

(** ** The factories *)

(** Unfolds a factory applied to a position object that exists, and
    settles the checks of the shape constructors that the context
    decides. *)
Ltac spawn Hpos :=
  unfold Script.createSphere, Script.createBox, Script.createCylinder,
    CANNON.newSphere, CANNON.newCylinder;
  rewrite Hpos; simpl;
  repeat (destruct (Rlt_dec _ 0) as [?Hneg|_]; [exfalso; lra|]);
  simpl.

Lemma withPosition_allocated :
  Script.objects withPosition.2 !! withPosition.1 = Some (Vec3.mk 0 3 0).
Proof. unfold withPosition, Script.new_object. simpl. apply lookup_insert_eq. Qed.

Lemma new_mesh_fresh (st : Script.State) :
  Script.meshes st !! fresh (dom (Script.meshes st)) = None.
Proof. apply not_elem_of_dom, is_fresh. Qed.

Lemma new_body_fresh (st : Script.State) :
  Script.bodies st !! fresh (dom (Script.bodies st)) = None.
Proof. apply not_elem_of_dom, is_fresh. Qed.

(** C9: a spawn that takes place (the position argument is an object
    and the radius of a sphere or cylinder is not negative) appends
    exactly one pair to the registry; the mesh and the body of the pair
    are new objects and start at the same position: the requested one
    for a sphere or a box, the requested one raised by the height
    offset for a cylinder. *)
Theorem C9_one_pair_same_position (st : Script.State) (position : ref) (p : Vec3.t) :
  Script.objects st !! position = Some p ->
  (forall radius : R,
      0 <= radius ->
      exists st' object m b,
        Script.createSphere radius position st = Script.Returns st' /\
        Script.objectsToUpdate st' = Script.objectsToUpdate st ++ [object] /\
        Script.meshes st !! mesh object = None /\
        Script.bodies st !! body object = None /\
        Script.meshes st' !! mesh object = Some m /\
        Script.bodies st' !! body object = Some b /\
        THREE.position m = p /\ CANNON.position b = p)
  /\ (forall width height depth : R,
      exists st' object m b,
        Script.createBox width height depth position st = Script.Returns st' /\
        Script.objectsToUpdate st' = Script.objectsToUpdate st ++ [object] /\
        Script.meshes st !! mesh object = None /\
        Script.bodies st !! body object = None /\
        Script.meshes st' !! mesh object = Some m /\
        Script.bodies st' !! body object = Some b /\
        THREE.position m = p /\ CANNON.position b = p)
  /\ (forall radius height : R,
      0 <= radius ->
      exists st' object m b,
        Script.createCylinder radius height position st = Script.Returns st' /\
        Script.objectsToUpdate st' = Script.objectsToUpdate st ++ [object] /\
        Script.meshes st !! mesh object = None /\
        Script.bodies st !! body object = None /\
        Script.meshes st' !! mesh object = Some m /\
        Script.bodies st' !! body object = Some b /\
        THREE.position m = CANNON.position b /\
        CANNON.position b
        = Vec3.mk (Vec3.x p) (Vec3.y p + height * 0.5 / 2) (Vec3.z p)).
Proof.
  intros Hpos. split; [|split]; intros; spawn Hpos;
    (eexists; exists (mkPair (fresh (dom (Script.meshes st)))
                             (fresh (dom (Script.bodies st))));
     eexists; eexists; split; [reflexivity|]; simpl;
     split; [reflexivity|];
     split; [apply new_mesh_fresh|];
     split; [apply new_body_fresh|];
     split; [apply lookup_insert_eq|];
     split; [apply lookup_insert_eq|];
     split; reflexivity).
Qed.

Lemma C9_witness :
  Script.objects withPosition.2 !! withPosition.1 = Some (Vec3.mk 0 3 0)
  /\ 0 <= 0.5
  /\ exists st' object m b,
      Script.createSphere 0.5 withPosition.1 withPosition.2 = Script.Returns st' /\
      Script.objectsToUpdate st' = Script.objectsToUpdate withPosition.2 ++ [object] /\
      Script.meshes withPosition.2 !! mesh object = None /\
      Script.bodies withPosition.2 !! body object = None /\
      Script.meshes st' !! mesh object = Some m /\
      Script.bodies st' !! body object = Some b /\
      THREE.position m = Vec3.mk 0 3 0 /\ CANNON.position b = Vec3.mk 0 3 0.
Proof.
  assert (Hr : 0 <= 0.5) by lra.
  split; [exact withPosition_allocated|]. split; [exact Hr|].
  exact (proj1 (C9_one_pair_same_position withPosition.2 withPosition.1
                  (Vec3.mk 0 3 0) withPosition_allocated) 0.5 Hr).
Defined.

(** Against C2 as stated: a sphere of radius zero is spawned like any
    other: the call returns normally, with a mesh in the scene, a body
    in the world and a pair in the registry. *)
Lemma C2_counterexample :
  0 <= 0 /\
  exists st' object,
    Script.createSphere 0 withPosition.1 withPosition.2 = Script.Returns st' /\
    Script.scene st' = Script.scene withPosition.2 ++ [mesh object] /\
    CANNON.bodies (Script.world st')
    = CANNON.bodies (Script.world withPosition.2) ++ [body object] /\
    Script.objectsToUpdate st' = Script.objectsToUpdate withPosition.2 ++ [object].
Proof.
  split; [lra|].
  spawn withPosition_allocated.
  eexists. eexists (mkPair _ _). split; [reflexivity|]. simpl.
  split; [reflexivity|]. split; reflexivity.
Qed.

(** C2, amended: the script validates no shape parameter.  A sphere of
    radius zero, and a box whatever its width, height and depth,
    non-positive ones included, is spawned like any other when the
    position argument is an object: the call returns and has created
    the whole object, one new mesh, attached to the scene, one new
    body, added to the world, and one pair in the registry. *)
Theorem C2_script_validates_nothing (st : Script.State) (position : ref) (p : Vec3.t) :
  Script.objects st !! position = Some p ->
  (exists st' object,
      Script.createSphere 0 position st = Script.Returns st' /\
      Script.scene st' = Script.scene st ++ [mesh object] /\
      CANNON.bodies (Script.world st')
      = CANNON.bodies (Script.world st) ++ [body object] /\
      Script.objectsToUpdate st'
      = Script.objectsToUpdate st ++ [object] /\
      is_Some (Script.meshes st' !! mesh object) /\
      is_Some (Script.bodies st' !! body object))
  /\ (forall width height depth : R,
      exists st' object,
        Script.createBox width height depth position st = Script.Returns st' /\
        Script.scene st' = Script.scene st ++ [mesh object] /\
        CANNON.bodies (Script.world st')
        = CANNON.bodies (Script.world st) ++ [body object] /\
        Script.objectsToUpdate st'
        = Script.objectsToUpdate st ++ [object] /\
        is_Some (Script.meshes st' !! mesh object) /\
        is_Some (Script.bodies st' !! body object)).
Proof.
  intros Hpos. split; intros; spawn Hpos;
    (eexists; eexists (mkPair _ _); split; [reflexivity|]; simpl;
     repeat (split; [reflexivity|]);
     split; eexists; apply lookup_insert_eq).
Qed.

Lemma C2_witness :
  Script.objects withPosition.2 !! withPosition.1 = Some (Vec3.mk 0 3 0)
  /\ exists st' object,
      Script.createBox (-1) 0 1 withPosition.1 withPosition.2 = Script.Returns st' /\
      Script.scene st' = Script.scene withPosition.2 ++ [mesh object] /\
      CANNON.bodies (Script.world st')
      = CANNON.bodies (Script.world withPosition.2) ++ [body object] /\
      Script.objectsToUpdate st'
      = Script.objectsToUpdate withPosition.2 ++ [object] /\
      is_Some (Script.meshes st' !! mesh object) /\
      is_Some (Script.bodies st' !! body object).
Proof.
  split; [exact withPosition_allocated|].
  exact (proj2 (C2_script_validates_nothing withPosition.2 withPosition.1
                  (Vec3.mk 0 3 0) withPosition_allocated) (-1) 0 1).
Defined.

(** What the sibling factories do: the body of a spawned sphere or box
    carries [playHitSound] under the type "collide". *)
Lemma createSphere_listens (radius : R) (position : ref) (st st' : Script.State) :
  Script.createSphere radius position st = Script.Returns st' ->
  exists object b,
    last (Script.objectsToUpdate st') = Some object /\
    Script.bodies st' !! body object = Some b /\
    CANNON.listeners b = [("collide"%string, CANNON.playHitSound_fn)].
Proof.
  unfold Script.createSphere, CANNON.newSphere.
  destruct (Script.objects st !! position) as [p|]; simpl; [|discriminate].
  destruct (Rlt_dec radius 0); simpl; [discriminate|].
  intros [= <-]. simpl. eexists (mkPair _ _), _.
  split; [apply last_snoc|]. split; [apply lookup_insert_eq|reflexivity].
Qed.

Lemma createBox_listens (width height depth : R) (position : ref)
      (st st' : Script.State) :
  Script.createBox width height depth position st = Script.Returns st' ->
  exists object b,
    last (Script.objectsToUpdate st') = Some object /\
    Script.bodies st' !! body object = Some b /\
    CANNON.listeners b = [("collide"%string, CANNON.playHitSound_fn)].
Proof.
  unfold Script.createBox.
  destruct (Script.objects st !! position) as [p|]; simpl; [|discriminate].
  intros [= <-]. simpl. eexists (mkPair _ _), _.
  split; [apply last_snoc|]. split; [apply lookup_insert_eq|reflexivity].
Qed.

(** C3: the body of a spawned cylinder carries no listener at all, so a
    collision of it, however hard, is dispatched to nobody and leaves
    the sound as it was; the same collision of a spawned sphere plays
    the sound. *)
Theorem C3_cylinder_body_has_no_listener :
  (exists st' object b,
      Script.createCylinder 1 1 withPosition.1 withPosition.2 = Script.Returns st' /\
      last (Script.objectsToUpdate st') = Some object /\
      Script.bodies st' !! body object = Some b /\
      CANNON.listeners b = [] /\
      forall (H : Host) (v : R),
        Script.dispatchEvent "collide" (CANNON.mkCollide (body object) v) st' = st')
  /\ (exists st' object b,
      Script.createSphere 1 withPosition.1 withPosition.2 = Script.Returns st' /\
      last (Script.objectsToUpdate st') = Some object /\
      Script.bodies st' !! body object = Some b /\
      CANNON.listeners b = [("collide"%string, CANNON.playHitSound_fn)] /\
      forall H : Host,
        Script.plays (Script.hitSound
          (Script.dispatchEvent "collide" (CANNON.mkCollide (body object) 2) st'))
        = S (Script.plays (Script.hitSound st'))).
Proof.
  split.
  - spawn withPosition_allocated.
    eexists. eexists (mkPair _ _). eexists.
    split; [reflexivity|]. simpl.
    split; [reflexivity|]. split; [apply lookup_insert_eq|].
    split; [reflexivity|].
    intros H v. unfold Script.dispatchEvent. simpl.
    rewrite lookup_insert_eq. reflexivity.
  - spawn withPosition_allocated.
    eexists. eexists (mkPair _ _). eexists.
    split; [reflexivity|]. simpl.
    split; [reflexivity|]. split; [apply lookup_insert_eq|].
    split; [reflexivity|].
    intros H. unfold Script.dispatchEvent. simpl.
    rewrite lookup_insert_eq. simpl.
    unfold Script.playHitSound. simpl.
    destruct (Rgt_dec 2 1.5) as [_|Hn]; [reflexivity|exfalso; lra].
Qed.

(** Against C4 as stated: a cylinder of requested height 2 spawned at
    height 3 ends up at height 3.5, not at 3 + 2/2. *)
Lemma C4_counterexample :
  exists st' object m b,
    Script.createCylinder 1 2 withPosition.1 withPosition.2 = Script.Returns st' /\
    last (Script.objectsToUpdate st') = Some object /\
    Script.meshes st' !! mesh object = Some m /\
    Script.bodies st' !! body object = Some b /\
    Vec3.y (THREE.position m) = 3.5 /\
    Vec3.y (CANNON.position b) = 3.5 /\
    Vec3.y (CANNON.position b) <> 3 + 2 / 2.
Proof.
  spawn withPosition_allocated.
  eexists. eexists (mkPair _ _). eexists. eexists.
  split; [reflexivity|]. simpl.
  split; [reflexivity|].
  split; [apply lookup_insert_eq|]. split; [apply lookup_insert_eq|].
  simpl. repeat split; lra.
Qed.

(** C4, amended: a cylinder is built with half the requested height,
    and its mesh and body are placed at the requested position raised
    by half of the height it is built with, that is by [(h * 0.5) / 2],
    a quarter of the requested height [h]. *)
Theorem C4_cylinder_offset (st : Script.State) (position : ref) (p : Vec3.t)
        (radius height : R) :
  Script.objects st !! position = Some p ->
  0 <= radius ->
  exists st' object m b,
    Script.createCylinder radius height position st = Script.Returns st' /\
    last (Script.objectsToUpdate st') = Some object /\
    Script.meshes st' !! mesh object = Some m /\
    Script.bodies st' !! body object = Some b /\
    THREE.geometry m
    = THREE.CylinderGeometry (radius * 0.2) (radius * 0.2) (height * 0.5) 32 /\
    CANNON.shapes b
    = [CANNON.Cylinder (radius * 0.2) (radius * 0.2) (height * 0.5) 32] /\
    THREE.position m
    = Vec3.mk (Vec3.x p) (Vec3.y p + height * 0.5 / 2) (Vec3.z p) /\
    CANNON.position b
    = Vec3.mk (Vec3.x p) (Vec3.y p + height * 0.5 / 2) (Vec3.z p) /\
    height * 0.5 / 2 = height / 4.
Proof.
  intros Hpos Hradius. spawn Hpos.
  eexists. eexists (mkPair _ _). eexists. eexists.
  split; [reflexivity|]. simpl.
  split; [apply last_snoc|].
  split; [apply lookup_insert_eq|]. split; [apply lookup_insert_eq|].
  simpl. repeat split; lra.
Qed.

Lemma C4_witness :
  Script.objects withPosition.2 !! withPosition.1 = Some (Vec3.mk 0 3 0)
  /\ 0 <= 1
  /\ exists st' object m b,
      Script.createCylinder 1 2 withPosition.1 withPosition.2 = Script.Returns st' /\
      last (Script.objectsToUpdate st') = Some object /\
      Script.meshes st' !! mesh object = Some m /\
      Script.bodies st' !! body object = Some b /\
      THREE.geometry m = THREE.CylinderGeometry (1 * 0.2) (1 * 0.2) (2 * 0.5) 32 /\
      CANNON.shapes b = [CANNON.Cylinder (1 * 0.2) (1 * 0.2) (2 * 0.5) 32] /\
      THREE.position m = Vec3.mk 0 (3 + 2 * 0.5 / 2) 0 /\
      CANNON.position b = Vec3.mk 0 (3 + 2 * 0.5 / 2) 0 /\
      2 * 0.5 / 2 = 2 / 4.
Proof.
  assert (Hr : 0 <= 1) by lra.
  split; [exact withPosition_allocated|]. split; [exact Hr|].
  exact (C4_cylinder_offset withPosition.2 withPosition.1 (Vec3.mk 0 3 0) 1 2
           withPosition_allocated Hr).
Defined.

(** C10: [createCylinder] writes to the object it is handed as position:
    whatever the radius and however the call ends, the [y] of that
    object has grown by [(height * 0.5) / 2] and no other object of the
    caller has changed; when the cylinder is spawned, its mesh and its
    body are placed at what the object holds after the write.
    [createSphere] and [createBox] leave every object of the caller as
    it was, however the call ends. *)
Theorem C10_position_argument (st : Script.State) (position : ref) (p : Vec3.t) :
  Script.objects st !! position = Some p ->
  (forall radius height : R,
      Script.objects (Script.after (Script.createCylinder radius height position st))
      = <[position := Vec3.mk (Vec3.x p) (Vec3.y p + height * 0.5 / 2) (Vec3.z p)]>
          (Script.objects st))
  /\ (forall radius height : R,
      0 <= radius ->
      exists st' p' object m b,
        Script.createCylinder radius height position st = Script.Returns st' /\
        p' = Vec3.mk (Vec3.x p) (Vec3.y p + height * 0.5 / 2) (Vec3.z p) /\
        Script.objects st' = <[position := p']> (Script.objects st) /\
        last (Script.objectsToUpdate st') = Some object /\
        Script.meshes st' !! mesh object = Some m /\
        Script.bodies st' !! body object = Some b /\
        THREE.position m = p' /\ CANNON.position b = p')
  /\ (forall radius : R,
      Script.objects (Script.after (Script.createSphere radius position st))
      = Script.objects st)
  /\ (forall radius : R,
      0 <= radius ->
      exists st',
        Script.createSphere radius position st = Script.Returns st' /\
        Script.objects st' = Script.objects st)
  /\ (forall width height depth : R,
      exists st',
        Script.createBox width height depth position st = Script.Returns st' /\
        Script.objects st' = Script.objects st).
Proof.
  intros Hpos. split; [|split; [|split; [|split]]]; intros.
  - unfold Script.createCylinder, CANNON.newCylinder. rewrite Hpos. simpl.
    destruct (Rlt_dec (radius * 0.2) 0); reflexivity.
  - spawn Hpos.
    eexists. eexists. eexists (mkPair _ _). eexists. eexists.
    split; [reflexivity|]. simpl.
    split; [reflexivity|]. split; [reflexivity|].
    split; [apply last_snoc|].
    split; [apply lookup_insert_eq|]. split; [apply lookup_insert_eq|].
    split; reflexivity.
  - unfold Script.createSphere, CANNON.newSphere. rewrite Hpos. simpl.
    destruct (Rlt_dec radius 0); reflexivity.
  - spawn Hpos. eexists. split; reflexivity.
  - spawn Hpos. eexists. split; reflexivity.
Qed.

Lemma C10_witness :
  Script.objects withPosition.2 !! withPosition.1 = Some (Vec3.mk 0 3 0)
  /\ 0 <= 1
  /\ exists st' p' object m b,
      Script.createCylinder 1 2 withPosition.1 withPosition.2 = Script.Returns st' /\
      p' = Vec3.mk 0 (3 + 2 * 0.5 / 2) 0 /\
      Script.objects st' = <[withPosition.1 := p']> (Script.objects withPosition.2) /\
      last (Script.objectsToUpdate st') = Some object /\
      Script.meshes st' !! mesh object = Some m /\
      Script.bodies st' !! body object = Some b /\
      THREE.position m = p' /\ CANNON.position b = p'.
Proof.
  assert (Hr : 0 <= 1) by lra.
  split; [exact withPosition_allocated|]. split; [exact Hr|].
  exact (proj1 (proj2 (C10_position_argument withPosition.2 withPosition.1
                         (Vec3.mk 0 3 0) withPosition_allocated)) 1 2 Hr).
Defined.

(** ** The collision sound *)

(** C5: a collision whose impact velocity exceeds 1.5 plays the sound:
    playback is started, from time zero, at the volume drawn from the
    random source, which lies in [0, 1]; a collision whose impact
    velocity is at most 1.5 changes nothing.  An impact velocity of 2
    plays the sound, an impact velocity of 1 does not. *)
Theorem C5_playHitSound_threshold `{Host} :
  (forall n : nat, 0 <= Math_random n < 1) ->
  (forall (collision : CANNON.CollideEvent) (st : Script.State),
      CANNON.impactVelocityAlongNormal collision > 1.5 ->
      let sound := Script.hitSound (Script.playHitSound collision st) in
      Script.currentTime sound = 0 /\
      Script.volume sound = Math_random (Script.randomCalls st) /\
      0 <= Script.volume sound <= 1 /\
      Script.paused sound = false /\
      Script.plays sound = S (Script.plays (Script.hitSound st)))
  /\ (forall (collision : CANNON.CollideEvent) (st : Script.State),
      CANNON.impactVelocityAlongNormal collision <= 1.5 ->
      Script.playHitSound collision st = st)
  /\ (forall (target : ref) (st : Script.State),
      Script.plays (Script.hitSound
                      (Script.playHitSound (CANNON.mkCollide target 2) st))
      = S (Script.plays (Script.hitSound st)))
  /\ (forall (target : ref) (st : Script.State),
      Script.playHitSound (CANNON.mkCollide target 1) st = st).
Proof.
  intros Hrange. repeat split.
  all: try (intros collision st Hv); try (intros target st);
    unfold Script.playHitSound; simpl;
    destruct (Rgt_dec _ 1.5) as [Hgt|Hle]; simpl;
    try reflexivity; try lra.
  all: specialize (Hrange (Script.randomCalls st)); lra.
Qed.

Lemma C5_witness :
  (forall n : nat, 0 <= @Math_random freeFall n < 1)
  /\ (2 > 1.5 ->
      let sound :=
        Script.hitSound
          (@Script.playHitSound freeFall (CANNON.mkCollide Script.floorBody 2)
             Script.init) in
      Script.currentTime sound = 0 /\
      Script.volume sound = 0.5 /\
      0 <= Script.volume sound <= 1 /\
      Script.paused sound = false /\
      Script.plays sound = 1%nat)
  /\ (1 <= 1.5 ->
      @Script.playHitSound freeFall (CANNON.mkCollide Script.floorBody 1) Script.init
      = Script.init).
Proof.
  assert (Hrange : forall n : nat, 0 <= @Math_random freeFall n < 1)
    by (intros n; simpl; lra).
  split; [exact Hrange|]. split.
  - exact (proj1 (@C5_playHitSound_threshold freeFall Hrange)
             (CANNON.mkCollide Script.floorBody 2) Script.init).
  - exact (proj1 (proj2 (@C5_playHitSound_threshold freeFall Hrange))
             (CANNON.mkCollide Script.floorBody 1) Script.init).
Defined.

(** ** Clearing the registry *)

Lemma splice_all {A} (l : list A) : splice 0 (length l) l = [].
Proof. unfold splice. simpl. apply skipn_all. Qed.

(** The loop of [reset] detaches from the world exactly the bodies of
    the pairs it runs over, and from the scene exactly their meshes. *)
Lemma reset_loop_world (l : list TrackedPair) :
  forall (st : Script.State) (r : ref),
    r ∈ CANNON.bodies (Script.world (fold_left Script.resetObject l st))
    <-> r ∈ CANNON.bodies (Script.world st) /\ forall o, o ∈ l -> body o <> r.
Proof.
  induction l as [|o l IH]; intros st r; simpl.
  - split; [intros Hr; split; [exact Hr|]|tauto].
    intros o Ho. inversion Ho.
  - rewrite IH. simpl. rewrite list_elem_of_filter. split.
    + intros [[Hne Hin] Hl]. split; [exact Hin|].
      intros o' Ho'. apply elem_of_cons in Ho' as [->|Ho']; [congruence|auto].
    + intros [Hin Hl]. split; [split|].
      * intros ->. apply (Hl o); [left|reflexivity].
      * exact Hin.
      * intros o' Ho'. apply Hl. now right.
Qed.

Lemma reset_loop_scene (l : list TrackedPair) :
  forall (st : Script.State) (r : ref),
    r ∈ Script.scene (fold_left Script.resetObject l st)
    <-> r ∈ Script.scene st /\ forall o, o ∈ l -> mesh o <> r.
Proof.
  induction l as [|o l IH]; intros st r; simpl.
  - split; [intros Hr; split; [exact Hr|]|tauto].
    intros o Ho. inversion Ho.
  - rewrite IH. simpl. unfold THREE.remove. rewrite list_elem_of_filter. split.
    + intros [[Hne Hin] Hl]. split; [exact Hin|].
      intros o' Ho'. apply elem_of_cons in Ho' as [->|Ho']; [congruence|auto].
    + intros [Hin Hl]. split; [split|].
      * intros ->. apply (Hl o); [left|reflexivity].
      * exact Hin.
      * intros o' Ho'. apply Hl. now right.
Qed.

(** A body the loop has run over no longer carries [playHitSound], and
    the loop registers nothing. *)
Lemma removeEventListener_gone (type : string) (f : CANNON.Listener) (b : CANNON.Body) :
  (type, f) ∉ CANNON.listeners (CANNON.removeEventListener type f b).
Proof. simpl. rewrite list_elem_of_filter. tauto. Qed.

Lemma removeEventListener_subset (type : string) (f : CANNON.Listener)
      (b : CANNON.Body) (r : string * CANNON.Listener) :
  r ∈ CANNON.listeners (CANNON.removeEventListener type f b) ->
  r ∈ CANNON.listeners b.
Proof. simpl. rewrite list_elem_of_filter. tauto. Qed.

Lemma reset_loop_listeners (l : list TrackedPair) :
  forall (st : Script.State) (r : ref) (b : CANNON.Body),
    Script.bodies (fold_left Script.resetObject l st) !! r = Some b ->
    exists b0,
      Script.bodies st !! r = Some b0 /\
      (forall rec, rec ∈ CANNON.listeners b -> rec ∈ CANNON.listeners b0) /\
      ((exists o, o ∈ l /\ body o = r) ->
       ("collide"%string, CANNON.playHitSound_fn) ∉ CANNON.listeners b).
Proof.
  induction l as [|o l IH]; intros st r b; simpl.
  - intros Hb. exists b. split; [exact Hb|]. split; [auto|].
    intros (o & Ho & _). inversion Ho.
  - intros Hb. apply IH in Hb as (b1 & Hb1 & Hsub & Hgone). simpl in Hb1.
    rewrite lookup_alter in Hb1.
    destruct (decide (body o = r)) as [Heq|Hne].
    + destruct (Script.bodies st !! body o) as [b0|] eqn:Hb0;
        simpl in Hb1; [|discriminate].
      injection Hb1 as <-. exists b0. split; [now rewrite <- Heq|].
      split.
      * intros rec Hrec. eapply removeEventListener_subset, Hsub, Hrec.
      * intros _ Hin. apply Hsub in Hin.
        now apply removeEventListener_gone in Hin.
    + exists b1. split; [exact Hb1|]. split; [exact Hsub|].
      intros (o' & Ho' & Ho'r). apply Hgone.
      apply elem_of_cons in Ho' as [->|Ho']; [congruence|eauto].
Qed.

(** C6: [reset] empties the registry; every pair that was in it has its
    body out of the world, its mesh out of the scene and [playHitSound]
    off its body. *)
Theorem C6_reset_clears (st : Script.State) :
  let st' := Script.debugObject_reset st in
  Script.objectsToUpdate st' = []
  /\ forall object : TrackedPair,
      object ∈ Script.objectsToUpdate st ->
      (body object ∉ CANNON.bodies (Script.world st')) /\
      (mesh object ∉ Script.scene st') /\
      forall b : CANNON.Body,
        Script.bodies st' !! body object = Some b ->
        ("collide"%string, CANNON.playHitSound_fn) ∉ CANNON.listeners b.
Proof.
  unfold Script.debugObject_reset. simpl. split; [apply splice_all|].
  intros object Hobject. split; [|split].
  - rewrite reset_loop_world. intros [_ Hl]. now apply (Hl object).
  - rewrite reset_loop_scene. intros [_ Hl]. now apply (Hl object).
  - intros b Hb. apply reset_loop_listeners in Hb as (_ & _ & _ & Hgone).
    apply Hgone. eauto.
Qed.

(** Bodies and meshes that are not tracked, the floor for one, stay. *)
Lemma reset_keeps_untracked (st : Script.State) (r : ref) :
  r ∈ CANNON.bodies (Script.world st) ->
  (forall o, o ∈ Script.objectsToUpdate st -> body o <> r) ->
  r ∈ CANNON.bodies (Script.world (Script.debugObject_reset st)).
Proof.
  intros Hin Hl. unfold Script.debugObject_reset. simpl.
  rewrite reset_loop_world. split; assumption.
Qed.

Lemma afterSpawns_registry :
  Script.objectsToUpdate afterSpawns = [mkPair 0%nat 1%nat; mkPair 1%nat 2%nat].
Proof.
  unfold afterSpawns.
  unfold Script.createSphere, CANNON.newSphere.
  rewrite withPosition_allocated. cbv zeta.
  destruct (Rlt_dec 0.5 0) as [Hneg|_]; [exfalso; lra|].
  unfold Script.createCylinder, CANNON.newCylinder.
  cbn [Script.after Script.new_mesh Script.new_body Script.objects
       Script.set_objectsToUpdate Script.set_world Script.set_scene
       Script.set_meshes Script.set_bodies fst snd].
  rewrite withPosition_allocated. cbv zeta.
  destruct (Rlt_dec (1 * 0.2) 0) as [Hneg|_]; [exfalso; lra|].
  vm_compute. reflexivity.
Qed.

Lemma C6_witness :
  mkPair 1%nat 2%nat ∈ Script.objectsToUpdate afterSpawns
  /\ ((2%nat ∉ CANNON.bodies (Script.world (Script.debugObject_reset afterSpawns))) /\
      (1%nat ∉ Script.scene (Script.debugObject_reset afterSpawns)) /\
      forall b : CANNON.Body,
        Script.bodies (Script.debugObject_reset afterSpawns) !! 2%nat = Some b ->
        ("collide"%string, CANNON.playHitSound_fn) ∉ CANNON.listeners b).
Proof.
  assert (Hin : mkPair 1%nat 2%nat ∈ Script.objectsToUpdate afterSpawns)
    by (rewrite afterSpawns_registry; right; left).
  split; [exact Hin|].
  exact (proj2 (C6_reset_clears afterSpawns) (mkPair 1%nat 2%nat) Hin).
Defined.

(** ** The launch *)

Lemma init_ballBody : is_Some (Launch.bodies Launch.init !! Launch.ballBody).
Proof. eexists. unfold Launch.init. simpl. apply lookup_insert_eq. Qed.

(** C7: with a positive mass [m], a launch at angle [a] (in degrees) and
    speed [s] leaves the ball with the velocity
    [(adjustedSpeed * cos a, adjustedSpeed * sin a, 0)], where
    [adjustedSpeed = s / sqrt m] and the trigonometric functions take
    the angle in radians, [a * PI / 180]; with angle 0, speed 10 and
    mass 1 that velocity is (10, 0, 0). *)
Theorem C7_launch_velocity `{Host} (st : Launch.State) :
  is_Some (Launch.bodies st !! Launch.ballBody) ->
  (0 < Launch.mass (Launch.settings st) ->
   exists b',
     Launch.bodies (Launch.launch st) !! Launch.ballBody = Some b' /\
     let s := Launch.settings st in
     let adjustedSpeed := Launch.velocity s / sqrt (Launch.mass s) in
     CANNON.velocity b'
     = Vec3.mk (adjustedSpeed * cos (Launch.angle s * PI / 180))
               (adjustedSpeed * sin (Launch.angle s * PI / 180))
               0)
  /\ (forall (launchHeight : R) (airResistance : bool),
      exists b',
        Launch.bodies
          (Launch.launch
             (Launch.set_settings
                (Launch.mkSettings 0 10 1 launchHeight airResistance) st))
        !! Launch.ballBody = Some b' /\
        CANNON.velocity b' = Vec3.mk 10 0 0).
Proof.
  intros [b Hb]. split.
  - intros Hm. eexists. split.
    + unfold Launch.launch. simpl. rewrite lookup_alter_eq, Hb. reflexivity.
    + simpl. f_equal; unfold Rdiv; ring.
  - intros launchHeight airResistance. eexists. split.
    + unfold Launch.launch. simpl. rewrite lookup_alter_eq, Hb. reflexivity.
    + simpl. replace (0 * PI / 180) with 0 by lra.
      rewrite sqrt_1, cos_0, sin_0. f_equal; lra.
Qed.

Lemma C7_witness :
  is_Some (Launch.bodies Launch.init !! Launch.ballBody)
  /\ 0 < Launch.mass (Launch.settings Launch.init)
  /\ exists b',
      Launch.bodies (@Launch.launch freeFall Launch.init) !! Launch.ballBody
      = Some b' /\
      CANNON.velocity b'
      = Vec3.mk (6 / sqrt 1 * cos (45 * PI / 180))
                (6 / sqrt 1 * sin (45 * PI / 180)) 0.
Proof.
  assert (Hm : 0 < Launch.mass (Launch.settings Launch.init)) by (simpl; lra).
  split; [exact init_ballBody|]. split; [exact Hm|].
  exact (proj1 (@C7_launch_velocity freeFall Launch.init init_ballBody) Hm).
Defined.

(** ** The air-resistance toggle *)

Lemma eraseAir_fields (st1 st2 : Launch.State) :
  Launch.eraseAir st1 = Launch.eraseAir st2 ->
  Launch.bodies st1 = Launch.bodies st2 /\
  Launch.meshes st1 = Launch.meshes st2 /\
  Launch.world st1 = Launch.world st2.
Proof.
  intros Heq. repeat split.
  - exact (f_equal Launch.bodies Heq).
  - exact (f_equal Launch.meshes Heq).
  - exact (f_equal Launch.world Heq).
Qed.

(** No handler reads the toggle: one event, taken in two states that
    agree up to the toggle, leads to two states that agree up to the
    toggle. *)
Lemma handle_eraseAir `{Host} (e1 e2 : Launch.Event) (st1 st2 : Launch.State) :
  Launch.sameButAir e1 e2 ->
  Launch.eraseAir st1 = Launch.eraseAir st2 ->
  Launch.eraseAir (Launch.handle st1 e1) = Launch.eraseAir (Launch.handle st2 e2).
Proof.
  intros He Hst.
  destruct st1 as [[a1 v1 m1 h1 r1] sc1 w1 ms1 bs1 os1 t1].
  destruct st2 as [[a2 v2 m2 h2 r2] sc2 w2 ms2 bs2 os2 t2].
  unfold Launch.eraseAir in Hst. simpl in Hst.
  injection Hst as -> -> -> -> -> -> -> -> -> ->.
  destruct e1, e2; simpl in He; try discriminate He; try injection He as ->;
    try reflexivity.
  (* a frame *)
  unfold Launch.handle, Launch.tick. simpl.
  destruct (CANNON.step _ _ _ _ _ _) as [w bs]. reflexivity.
Qed.

Lemma run_eraseAir `{Host} (events1 events2 : list Launch.Event) :
  Forall2 Launch.sameButAir events1 events2 ->
  forall st1 st2 : Launch.State,
    Launch.eraseAir st1 = Launch.eraseAir st2 ->
    Launch.eraseAir (Launch.run events1 st1) = Launch.eraseAir (Launch.run events2 st2).
Proof.
  induction 1 as [|e1 e2 l1 l2 He _ IH]; intros st1 st2 Hst; simpl; [exact Hst|].
  apply IH. now apply handle_eraseAir.
Qed.

(** C8: two sessions of the launch variant that start from states equal
    up to the air-resistance setting and receive the same frames and the
    same operations of the panel, up to the values given to the
    air-resistance toggle, have after every number of events the same
    bodies (position, orientation and velocity included), the same
    meshes and the same world. *)
Theorem C8_air_resistance_unobservable `{Host}
        (events1 events2 : list Launch.Event) (st1 st2 : Launch.State) :
  Forall2 Launch.sameButAir events1 events2 ->
  Launch.eraseAir st1 = Launch.eraseAir st2 ->
  forall n : nat,
    let s1 := Launch.run (take n events1) st1 in
    let s2 := Launch.run (take n events2) st2 in
    Launch.bodies s1 = Launch.bodies s2 /\
    Launch.meshes s1 = Launch.meshes s2 /\
    Launch.world s1 = Launch.world s2.
Proof.
  intros Hev Hst n. simpl.
  apply eraseAir_fields, run_eraseAir; [|exact Hst].
  now apply Forall2_take.
Qed.

Lemma C8_witness :
  Forall2 Launch.sameButAir airOn airOff
  /\ Launch.eraseAir Launch.init
     = Launch.eraseAir (@Launch.handle freeFall Launch.init (Launch.SetAirResistance false))
  /\ (let s1 := @Launch.run freeFall (take 6 airOn) Launch.init in
      let s2 := @Launch.run freeFall (take 6 airOff)
                  (@Launch.handle freeFall Launch.init (Launch.SetAirResistance false)) in
      Launch.bodies s1 = Launch.bodies s2 /\
      Launch.meshes s1 = Launch.meshes s2 /\
      Launch.world s1 = Launch.world s2).
Proof.
  assert (Hev : Forall2 Launch.sameButAir airOn airOff)
    by (repeat constructor).
  assert (Hst : Launch.eraseAir Launch.init
                = Launch.eraseAir
                    (@Launch.handle freeFall Launch.init (Launch.SetAirResistance false)))
    by reflexivity.
  split; [exact Hev|]. split; [exact Hst|].
  exact (@C8_air_resistance_unobservable freeFall airOn airOff Launch.init _ Hev Hst 6%nat).
Defined.

(** * Further properties *)

(** ** What a frame keeps *)

(** Whatever every sub-step keeps, [step] keeps. *)
Lemma step_keeps {P : Type} (internalStep : R -> CANNON.World -> P -> P)
      (Q : P -> Prop) :
  (forall dt w p, Q p -> Q (internalStep dt w p)) ->
  forall fixedDelta elapsedDelta maxSubSteps w p,
    Q p -> Q (CANNON.step internalStep fixedDelta elapsedDelta maxSubSteps w p).2.
Proof.
  intros Hstep fixedDelta elapsedDelta maxSubSteps w p Hp.
  destruct (step_advance internalStep fixedDelta elapsedDelta maxSubSteps w p)
    as (k & _ & ->).
  generalize (CANNON.set_accumulator (CANNON.accumulator w + elapsedDelta) w).
  revert p Hp. induction k as [|k IH]; intros p Hp w'; simpl; [exact Hp|].
  apply IH, Hstep, Hp.
Qed.

(** Sub-steps leave the list of the bodies of the world and its
    configuration alone. *)
Lemma step_world {P : Type} (internalStep : R -> CANNON.World -> P -> P)
      (fixedDelta elapsedDelta : R) (maxSubSteps : nat) (w : CANNON.World) (p : P) :
  let w' := (CANNON.step internalStep fixedDelta elapsedDelta maxSubSteps w p).1 in
  CANNON.bodies w' = CANNON.bodies w /\
  CANNON.gravity w' = CANNON.gravity w /\
  CANNON.allowSleep w' = CANNON.allowSleep w.
Proof.
  simpl.
  destruct (step_advance internalStep fixedDelta elapsedDelta maxSubSteps w p)
    as (k & _ & ->).
  change (CANNON.bodies w) with
    (CANNON.bodies (CANNON.set_accumulator (CANNON.accumulator w + elapsedDelta) w)).
  change (CANNON.gravity w) with
    (CANNON.gravity (CANNON.set_accumulator (CANNON.accumulator w + elapsedDelta) w)).
  change (CANNON.allowSleep w) with
    (CANNON.allowSleep (CANNON.set_accumulator (CANNON.accumulator w + elapsedDelta) w)).
  generalize (CANNON.set_accumulator (CANNON.accumulator w + elapsedDelta) w).
  revert p. induction k as [|k IH]; intros p w'; simpl; [auto|].
  destruct (IH (internalStep fixedDelta w' p) (CANNON.consume fixedDelta w'))
    as (-> & -> & ->). auto.
Qed.

(** The part of the state of the sandbox that only the buttons write. *)
Lemma playHitSound_keeps `{Host} (c : CANNON.CollideEvent) (st : Script.State) :
  let st' := Script.playHitSound c st in
  Script.scene st' = Script.scene st /\
  Script.world st' = Script.world st /\
  Script.meshes st' = Script.meshes st /\
  Script.bodies st' = Script.bodies st /\
  Script.objects st' = Script.objects st /\
  Script.objectsToUpdate st' = Script.objectsToUpdate st /\
  Script.oldElapsedTime st' = Script.oldElapsedTime st.
Proof.
  unfold Script.playHitSound. simpl.
  destruct (Rgt_dec _ _); simpl; repeat split; reflexivity.
Qed.

Lemma dispatchEvent_keeps `{Host} (type : string) (c : CANNON.CollideEvent)
      (st : Script.State) :
  let st' := Script.dispatchEvent type c st in
  Script.scene st' = Script.scene st /\
  Script.world st' = Script.world st /\
  Script.meshes st' = Script.meshes st /\
  Script.bodies st' = Script.bodies st /\
  Script.objects st' = Script.objects st /\
  Script.objectsToUpdate st' = Script.objectsToUpdate st /\
  Script.oldElapsedTime st' = Script.oldElapsedTime st.
Proof.
  unfold Script.dispatchEvent. simpl.
  destruct (Script.bodies st !! CANNON.target c) as [b|]; [|repeat split; reflexivity].
  generalize (CANNON.listeners b). intros l.
  revert st. induction l as [|[ty f] l IH]; intros st; simpl;
    [repeat split; reflexivity|].
  destruct (decide (ty = type)); [|apply IH].
  destruct f. simpl.
  destruct (IH (Script.playHitSound c st)) as (-> & -> & -> & -> & -> & -> & ->).
  apply playHitSound_keeps.
Qed.

Lemma dispatch_all_keeps `{Host} (cs : list CANNON.CollideEvent) :
  forall st : Script.State,
    let st' := fold_left (fun s e => Script.dispatchEvent "collide" e s) cs st in
    Script.scene st' = Script.scene st /\
    Script.world st' = Script.world st /\
    Script.meshes st' = Script.meshes st /\
    Script.bodies st' = Script.bodies st /\
    Script.objects st' = Script.objects st /\
    Script.objectsToUpdate st' = Script.objectsToUpdate st /\
    Script.oldElapsedTime st' = Script.oldElapsedTime st.
Proof.
  induction cs as [|c cs IH]; intros st; simpl; [repeat split; reflexivity|].
  destruct (IH (Script.dispatchEvent "collide" c st))
    as (-> & -> & -> & -> & -> & -> & ->).
  apply dispatchEvent_keeps.
Qed.

Lemma internalStep_keeps `{Host} (dt : R) (w : CANNON.World) (st : Script.State) :
  let st' := Script.internalStep dt w st in
  Script.scene st' = Script.scene st /\
  Script.world st' = Script.world st /\
  Script.meshes st' = Script.meshes st /\
  Script.bodies st' = (integrate dt w (Script.bodies st)).1 /\
  Script.objects st' = Script.objects st /\
  Script.objectsToUpdate st' = Script.objectsToUpdate st /\
  Script.oldElapsedTime st' = Script.oldElapsedTime st.
Proof.
  unfold Script.internalStep. simpl.
  destruct (integrate dt w (Script.bodies st)) as [moved collisions]. simpl.
  destruct (dispatch_all_keeps collisions (Script.set_bodies moved st))
    as (-> & -> & -> & -> & -> & -> & ->).
  repeat split; reflexivity.
Qed.

(** How [tick] is put together: the sub-steps run on the state with the
    clock reading stored, then the poses are copied. *)
Lemma Script_tick_shape `{Host} (elapsedTime : R) (st : Script.State) :
  exists (w : CANNON.World) (st1 : Script.State),
    CANNON.step Script.internalStep (1 / 60)
      (elapsedTime - Script.oldElapsedTime st) 3 (Script.world st)
      (Script.set_oldElapsedTime elapsedTime st) = (w, st1) /\
    Script.tick elapsedTime st
    = Script.set_meshes
        (fold_left (syncObject (Script.bodies st1)) (Script.objectsToUpdate st1)
                   (Script.meshes st1))
        (Script.set_world w st1) /\
    CANNON.bodies w = CANNON.bodies (Script.world st) /\
    Script.scene st1 = Script.scene st /\
    Script.meshes st1 = Script.meshes st /\
    Script.objects st1 = Script.objects st /\
    Script.objectsToUpdate st1 = Script.objectsToUpdate st.
Proof.
  unfold Script.tick. simpl.
  pose proof (step_world Script.internalStep (1 / 60)
                (elapsedTime - Script.oldElapsedTime st) 3 (Script.world st)
                (Script.set_oldElapsedTime elapsedTime st)) as (Hw & _).
  pose proof (step_keeps Script.internalStep
                (fun s => Script.scene s = Script.scene st /\
                          Script.meshes s = Script.meshes st /\
                          Script.objects s = Script.objects st /\
                          Script.objectsToUpdate s = Script.objectsToUpdate st)) as Hk.
  specialize (Hk ltac:(intros dt w p (<- & <- & <- & <-);
                       destruct (internalStep_keeps dt w p)
                         as (-> & _ & -> & _ & -> & -> & _); auto)
                 (1 / 60) (elapsedTime - Script.oldElapsedTime st) 3%nat
                 (Script.world st) (Script.set_oldElapsedTime elapsedTime st)
                 ltac:(simpl; auto)).
  destruct (CANNON.step _ _ _ _ _ _) as [w st1]. simpl in *.
  exists w, st1. destruct Hk as (? & ? & ? & ?). auto 10.
Qed.

(** ** Mirroring the poses *)

(** The pose of a body, written onto a mesh. *)
Lemma syncObject_lookup (bs : gmap ref CANNON.Body) (ms : gmap ref THREE.Mesh)
      (o : TrackedPair) (r : ref) :
  syncObject bs ms o !! r
  = match bs !! body o with
    | Some b =>
        if decide (mesh o = r)
        then (fun m => THREE.set_quaternion (CANNON.quaternion b)
                         (THREE.set_position (CANNON.position b) m)) <$> ms !! r
        else ms !! r
    | None => ms !! r
    end.
Proof.
  unfold syncObject. destruct (bs !! body o) as [b|]; [|reflexivity].
  rewrite lookup_alter. destruct (decide (mesh o = r)) as [->|]; reflexivity.
Qed.

Lemma sync_loop_other (bs : gmap ref CANNON.Body) (l : list TrackedPair) (r : ref) :
  r ∉ mesh <$> l ->
  forall ms : gmap ref THREE.Mesh, fold_left (syncObject bs) l ms !! r = ms !! r.
Proof.
  induction l as [|o l IH]; intros Hr ms; simpl; [reflexivity|].
  rewrite fmap_cons, not_elem_of_cons in Hr. destruct Hr as [Hne Hr].
  rewrite (IH Hr), syncObject_lookup.
  destruct (bs !! body o); [|reflexivity].
  destruct (decide (mesh o = r)); [congruence|reflexivity].
Qed.

Lemma sync_loop_tracked (bs : gmap ref CANNON.Body) (l : list TrackedPair)
      (o : TrackedPair) (b : CANNON.Body) :
  NoDup (mesh <$> l) -> o ∈ l -> bs !! body o = Some b ->
  forall ms : gmap ref THREE.Mesh,
    fold_left (syncObject bs) l ms !! mesh o
    = (fun m => THREE.set_quaternion (CANNON.quaternion b)
                  (THREE.set_position (CANNON.position b) m)) <$> ms !! mesh o.
Proof.
  intros Hnd Ho Hb. induction l as [|a l IH]; intros ms; [inversion Ho|].
  rewrite fmap_cons in Hnd. apply NoDup_cons in Hnd as [Ha Hnd]. simpl.
  apply elem_of_cons in Ho as [->|Ho].
  - rewrite (sync_loop_other bs l (mesh a) Ha), syncObject_lookup, Hb.
    destruct (decide (mesh a = mesh a)); [reflexivity|congruence].
  - rewrite (IH Hnd Ho), syncObject_lookup.
    destruct (bs !! body a); [|reflexivity].
    destruct (decide (mesh a = mesh o)) as [Heq|]; [|reflexivity].
    exfalso. apply Ha. rewrite Heq. apply list_elem_of_fmap. eauto.
Qed.

(** The loop writes positions and orientations only. *)
Lemma sync_loop_shape (bs : gmap ref CANNON.Body) (l : list TrackedPair) (r : ref) :
  forall ms : gmap ref THREE.Mesh,
    THREE.geometry <$> fold_left (syncObject bs) l ms !! r = THREE.geometry <$> ms !! r /\
    THREE.scale <$> fold_left (syncObject bs) l ms !! r = THREE.scale <$> ms !! r /\
    THREE.castShadow <$> fold_left (syncObject bs) l ms !! r
    = THREE.castShadow <$> ms !! r.
Proof.
  induction l as [|o l IH]; intros ms; simpl; [auto|].
  destruct (IH (syncObject bs ms o)) as (-> & -> & ->).
  rewrite syncObject_lookup.
  destruct (bs !! body o); [|auto].
  destruct (decide (mesh o = r)); [|auto].
  destruct (ms !! r); simpl; auto.
Qed.

(** After a frame every tracked pair is in step, provided no mesh is
    tracked by two pairs. *)
Lemma tick_mirrors_tracked `{Host} (elapsedTime : R) (st : Script.State) :
  NoDup (mesh <$> Script.objectsToUpdate st) ->
  forall (object : TrackedPair) (b : CANNON.Body) (m : THREE.Mesh),
    object ∈ Script.objectsToUpdate st ->
    Script.bodies (Script.tick elapsedTime st) !! body object = Some b ->
    Script.meshes (Script.tick elapsedTime st) !! mesh object = Some m ->
    THREE.position m = CANNON.position b /\
    THREE.quaternion m = CANNON.quaternion b.
Proof.
  intros Hnd object b m Hobject.
  destruct (Script_tick_shape elapsedTime st)
    as (w & st1 & _ & -> & _ & _ & Hms & _ & Hobjs). simpl.
  rewrite Hobjs. intros Hb.
  rewrite (sync_loop_tracked _ _ _ _ Hnd Hobject Hb).
  destruct (Script.meshes st1 !! mesh object); simpl; [|discriminate].
  intros [= <-]. split; reflexivity.
Qed.

(** X3: a frame spawns and removes nothing.  The registry, the scene,
    the list of the bodies of the world and the objects of the callers
    are as before, no mesh appears or disappears, meshes keep their geometry, scale and shadow
    flag, and a mesh that no pair tracks is not written at all. *)
Theorem Script_tick_frame `{Host} (elapsedTime : R) (st : Script.State) :
  let st' := Script.tick elapsedTime st in
  Script.objectsToUpdate st' = Script.objectsToUpdate st /\
  Script.scene st' = Script.scene st /\
  CANNON.bodies (Script.world st') = CANNON.bodies (Script.world st) /\
  Script.objects st' = Script.objects st /\
  (forall r : ref,
      THREE.geometry <$> Script.meshes st' !! r
      = THREE.geometry <$> Script.meshes st !! r /\
      THREE.scale <$> Script.meshes st' !! r = THREE.scale <$> Script.meshes st !! r /\
      THREE.castShadow <$> Script.meshes st' !! r
      = THREE.castShadow <$> Script.meshes st !! r) /\
  (forall r : ref,
      r ∉ mesh <$> Script.objectsToUpdate st ->
      Script.meshes st' !! r = Script.meshes st !! r).
Proof.
  simpl.
  destruct (Script_tick_shape elapsedTime st)
    as (w & st1 & _ & -> & Hw & Hsc & Hms & Hob & Hobjs). simpl.
  rewrite Hobjs, Hsc, Hob, Hms. repeat split; try reflexivity; try exact Hw.
  1-3: apply sync_loop_shape.
  intros r Hr. now apply sync_loop_other.
Qed.

Lemma afterSpawns_untracked : 7%nat ∉ mesh <$> Script.objectsToUpdate afterSpawns.
Proof.
  rewrite afterSpawns_registry. simpl.
  rewrite !not_elem_of_cons. repeat split; try discriminate. apply not_elem_of_nil.
Qed.

Lemma Script_tick_frame_witness :
  (7%nat ∉ mesh <$> Script.objectsToUpdate afterSpawns)
  /\ Script.meshes (@Script.tick freeFall 1 afterSpawns) !! 7%nat
     = Script.meshes afterSpawns !! 7%nat.
Proof.
  split; [exact afterSpawns_untracked|].
  exact (proj2 (proj2 (proj2 (proj2 (proj2 (@Script_tick_frame freeFall 1 afterSpawns)))))
           7%nat afterSpawns_untracked).
Defined.

(** ** What [reset] removes and what it keeps *)

Lemma filter_keeps_all {A} (P : A -> Prop) `{forall x, Decision (P x)} (l : list A) :
  (forall x, x ∈ l -> P x) -> filter P l = l.
Proof.
  induction l as [|a l IH]; intros Hall; [reflexivity|].
  rewrite filter_cons. destruct (decide (P a)) as [_|Hn].
  - f_equal. apply IH. intros x Hx. apply Hall. now right.
  - exfalso. apply Hn, Hall. left.
Qed.

Lemma filter_keeps_none {A} (P : A -> Prop) `{forall x, Decision (P x)} (l : list A) :
  (forall x, x ∈ l -> ~ P x) -> filter P l = [].
Proof.
  induction l as [|a l IH]; intros Hnone; [reflexivity|].
  rewrite filter_cons. destruct (decide (P a)) as [Hp|_].
  - exfalso. apply (Hnone a); [left|exact Hp].
  - apply IH. intros x Hx. apply Hnone. now right.
Qed.

(** The loop of [reset] filters the world and the scene by the pairs it
    runs over, and touches nothing else but the listeners of their
    bodies. *)
Lemma reset_loop_world_eq (l : list TrackedPair) :
  forall st : Script.State,
    CANNON.bodies (Script.world (fold_left Script.resetObject l st))
    = filter (fun r => r ∉ body <$> l) (CANNON.bodies (Script.world st)).
Proof.
  induction l as [|o l IH]; intros st; simpl.
  - symmetry. apply filter_keeps_all. intros x _. apply not_elem_of_nil.
  - rewrite IH. simpl. rewrite list_filter_filter. apply list_filter_iff.
    intros x. rewrite not_elem_of_cons. tauto.
Qed.

Lemma reset_loop_scene_eq (l : list TrackedPair) :
  forall st : Script.State,
    Script.scene (fold_left Script.resetObject l st)
    = filter (fun r => r ∉ mesh <$> l) (Script.scene st).
Proof.
  induction l as [|o l IH]; intros st; simpl.
  - symmetry. apply filter_keeps_all. intros x _. apply not_elem_of_nil.
  - rewrite IH. simpl. unfold THREE.remove.
    rewrite list_filter_filter. apply list_filter_iff.
    intros x. rewrite not_elem_of_cons. tauto.
Qed.

Lemma reset_loop_keeps (l : list TrackedPair) :
  forall st : Script.State,
    let st' := fold_left Script.resetObject l st in
    Script.meshes st' = Script.meshes st /\
    Script.objects st' = Script.objects st /\
    Script.objectsToUpdate st' = Script.objectsToUpdate st /\
    Script.hitSound st' = Script.hitSound st /\
    Script.oldElapsedTime st' = Script.oldElapsedTime st /\
    Script.randomCalls st' = Script.randomCalls st /\
    dom (Script.bodies st') = dom (Script.bodies st) /\
    CANNON.gravity (Script.world st') = CANNON.gravity (Script.world st) /\
    CANNON.accumulator (Script.world st') = CANNON.accumulator (Script.world st).
Proof.
  induction l as [|o l IH]; intros st; simpl; [repeat split; reflexivity|].
  destruct (IH (Script.resetObject st o)) as (-> & -> & -> & -> & -> & -> & -> & -> & ->).
  simpl. rewrite dom_alter_L. repeat split; reflexivity.
Qed.

(** A body keeps everything but its listeners through the loop. *)
Lemma reset_loop_body (l : list TrackedPair) (r : ref) :
  forall st : Script.State,
    CANNON.set_listeners [] <$> Script.bodies (fold_left Script.resetObject l st) !! r
    = CANNON.set_listeners [] <$> Script.bodies st !! r.
Proof.
  induction l as [|o l IH]; intros st; simpl; [reflexivity|].
  rewrite IH. simpl. rewrite lookup_alter.
  destruct (decide (body o = r)) as [->|]; [|reflexivity].
  destruct (Script.bodies st !! r); reflexivity.
Qed.

(** X4: [reset] takes out of the world exactly the bodies of the tracked
    pairs and out of the scene exactly their meshes, in place: what is
    not tracked, the floor for one, stays where it was.  It frees and
    moves nothing: the meshes, the objects of the callers and the sound
    are as before, and every body is as before but for its
    listeners. *)
Theorem reset_removes_exactly_tracked (st : Script.State) :
  let st' := Script.debugObject_reset st in
  CANNON.bodies (Script.world st')
  = filter (fun r => r ∉ body <$> Script.objectsToUpdate st)
           (CANNON.bodies (Script.world st)) /\
  Script.scene st'
  = filter (fun r => r ∉ mesh <$> Script.objectsToUpdate st) (Script.scene st) /\
  Script.meshes st' = Script.meshes st /\
  Script.objects st' = Script.objects st /\
  Script.hitSound st' = Script.hitSound st /\
  (forall r : ref,
      CANNON.set_listeners [] <$> Script.bodies st' !! r
      = CANNON.set_listeners [] <$> Script.bodies st !! r).
Proof.
  unfold Script.debugObject_reset. simpl.
  destruct (reset_loop_keeps (Script.objectsToUpdate st) st)
    as (Hm & Ho & _ & Hs & _).
  split; [apply reset_loop_world_eq|]. split; [apply reset_loop_scene_eq|].
  split; [exact Hm|]. split; [exact Ho|]. split; [exact Hs|].
  intros r. apply reset_loop_body.
Qed.

(** X5: a second [reset] right after a first changes nothing. *)
Theorem reset_idempotent (st : Script.State) :
  Script.debugObject_reset (Script.debugObject_reset st) = Script.debugObject_reset st.
Proof.
  assert (Hempty : Script.objectsToUpdate (Script.debugObject_reset st) = [])
    by (unfold Script.debugObject_reset; simpl; apply splice_all).
  unfold Script.debugObject_reset at 1.
  set (s := Script.debugObject_reset st) in *. clearbody s.
  rewrite Hempty. simpl. rewrite Hempty.
  destruct s; simpl in *. subst. reflexivity.
Qed.

(** X6: once [reset] has run, a collision of a body that was tracked,
    however hard, is dispatched to no listener: the state stays as it
    is and no sound is played. *)
Theorem reset_silences `{Host} (st : Script.State) (object : TrackedPair) (v : R) :
  object ∈ Script.objectsToUpdate st ->
  Script.dispatchEvent "collide" (CANNON.mkCollide (body object) v)
                       (Script.debugObject_reset st)
  = Script.debugObject_reset st.
Proof.
  intros Hobject.
  remember (Script.debugObject_reset st) as s eqn:Hs.
  unfold Script.dispatchEvent. simpl.
  destruct (Script.bodies s !! body object) as [b|] eqn:Hb; [|reflexivity].
  assert (Hgone : ("collide"%string, CANNON.playHitSound_fn) ∉ CANNON.listeners b).
  { rewrite Hs in Hb. unfold Script.debugObject_reset in Hb. simpl in Hb.
    apply reset_loop_listeners in Hb as (_ & _ & _ & Hgone). apply Hgone. eauto. }
  clear Hs Hb. revert Hgone s.
  generalize (CANNON.listeners b). intros l.
  induction l as [|[ty f] l IH]; intros Hgone s; simpl; [reflexivity|].
  apply not_elem_of_cons in Hgone as [Hne Hgone].
  destruct (decide (ty = "collide"%string)) as [->|]; [|now apply IH].
  destruct f. congruence.
Qed.

Lemma afterSpawns_tracked : mkPair 1%nat 2%nat ∈ Script.objectsToUpdate afterSpawns.
Proof. rewrite afterSpawns_registry. right. left. Qed.

Lemma reset_silences_witness :
  mkPair 1%nat 2%nat ∈ Script.objectsToUpdate afterSpawns
  /\ @Script.dispatchEvent freeFall "collide" (CANNON.mkCollide 2%nat 5)
       (Script.debugObject_reset afterSpawns)
     = Script.debugObject_reset afterSpawns.
Proof.
  split; [exact afterSpawns_tracked|].
  exact (@reset_silences freeFall afterSpawns (mkPair 1%nat 2%nat) 5 afterSpawns_tracked).
Defined.

(** ** The pairing invariant *)

Lemma consistent_init : Script.consistent Script.init.
Proof.
  unfold Script.consistent. simpl. repeat split.
  - constructor.
  - apply NoDup_singleton.
  - intros r Hr. inversion Hr.
  - intros r Hr. apply list_elem_of_singleton in Hr as ->.
    rewrite lookup_singleton_eq. eauto.
Qed.

(** Appending a new mesh and a new body, under fresh references, keeps
    the registry, the scene and the world in agreement. *)
Lemma consistent_spawned (st st' : Script.State) (mv : THREE.Mesh) (bv : CANNON.Body) :
  let m := fresh (dom (Script.meshes st)) in
  let b := fresh (dom (Script.bodies st)) in
  Script.consistent st ->
  Script.objectsToUpdate st' = Script.objectsToUpdate st ++ [mkPair m b] ->
  Script.scene st' = Script.scene st ++ [m] ->
  CANNON.bodies (Script.world st') = CANNON.bodies (Script.world st) ++ [b] ->
  Script.meshes st' = <[m := mv]> (Script.meshes st) ->
  Script.bodies st' = <[b := bv]> (Script.bodies st) ->
  Script.consistent st'.
Proof.
  intros m b (Hsc & Hw & Hndm & Hndb & Hms & Hbs) Hobjs Hsc' Hw' Hms' Hbs'.
  assert (Hm : m ∉ mesh <$> Script.objectsToUpdate st).
  { intros Hin. apply Hms in Hin. apply elem_of_dom in Hin.
    now apply is_fresh in Hin. }
  assert (Hb : b ∉ Script.floorBody :: (body <$> Script.objectsToUpdate st)).
  { intros Hin. apply Hbs in Hin. apply elem_of_dom in Hin.
    now apply is_fresh in Hin. }
  unfold Script.consistent.
  rewrite Hobjs, Hsc', Hw', Hms', Hbs', !fmap_app, Hsc, Hw. simpl.
  split; [reflexivity|]. split; [reflexivity|].
  split; [|split; [|split]].
  - apply NoDup_app. split; [exact Hndm|]. split; [|apply NoDup_singleton].
    intros x Hx Hx'. apply list_elem_of_singleton in Hx' as ->. auto.
  - change (NoDup ((Script.floorBody :: (body <$> Script.objectsToUpdate st)) ++ [b])).
    apply NoDup_app. split; [exact Hndb|]. split; [|apply NoDup_singleton].
    intros x Hx Hx'. apply list_elem_of_singleton in Hx' as ->. auto.
  - intros r Hr. apply elem_of_app in Hr as [Hr|Hr].
    + destruct (decide (m = r)) as [->|Hne]; [rewrite lookup_insert_eq; eauto|].
      rewrite lookup_insert_ne by exact Hne. auto.
    + apply list_elem_of_singleton in Hr as ->. rewrite lookup_insert_eq. eauto.
  - intros r Hr.
    change (r ∈ (Script.floorBody :: (body <$> Script.objectsToUpdate st)) ++ [b]) in Hr.
    apply elem_of_app in Hr as [Hr|Hr].
    + destruct (decide (b = r)) as [->|Hne]; [rewrite lookup_insert_eq; eauto|].
      rewrite lookup_insert_ne by exact Hne. auto.
    + apply list_elem_of_singleton in Hr as ->. rewrite lookup_insert_eq. eauto.
Qed.

(** The invariant does not look at the sound, the random source, the
    clock or the objects of the callers. *)
Lemma consistent_ext (st st' : Script.State) :
  Script.scene st' = Script.scene st ->
  CANNON.bodies (Script.world st') = CANNON.bodies (Script.world st) ->
  Script.objectsToUpdate st' = Script.objectsToUpdate st ->
  (forall r, is_Some (Script.meshes st !! r) -> is_Some (Script.meshes st' !! r)) ->
  (forall r, is_Some (Script.bodies st !! r) -> is_Some (Script.bodies st' !! r)) ->
  Script.consistent st -> Script.consistent st'.
Proof.
  intros Hsc Hw Hobjs Hms Hbs (? & ? & ? & ? & ? & ?).
  unfold Script.consistent. rewrite Hsc, Hw, Hobjs. repeat split; auto.
Qed.

Lemma createSphere_consistent (radius : R) (position : ref) (st st' : Script.State) :
  Script.consistent st ->
  Script.createSphere radius position st = Script.Returns st' -> Script.consistent st'.
Proof.
  intros Hc. unfold Script.createSphere, CANNON.newSphere.
  destruct (Script.objects st !! position) as [p|]; simpl; [|discriminate].
  destruct (Rlt_dec radius 0); simpl; [discriminate|].
  intros [= <-]. eapply consistent_spawned; [exact Hc|reflexivity..].
Qed.

Lemma createBox_consistent (width height depth : R) (position : ref)
      (st st' : Script.State) :
  Script.consistent st ->
  Script.createBox width height depth position st = Script.Returns st' ->
  Script.consistent st'.
Proof.
  intros Hc. unfold Script.createBox.
  destruct (Script.objects st !! position) as [p|]; simpl; [|discriminate].
  intros [= <-]. eapply consistent_spawned; [exact Hc|reflexivity..].
Qed.

Lemma createCylinder_consistent (radius height : R) (position : ref)
      (st st' : Script.State) :
  Script.consistent st ->
  Script.createCylinder radius height position st = Script.Returns st' ->
  Script.consistent st'.
Proof.
  intros Hc. unfold Script.createCylinder, CANNON.newCylinder.
  destruct (Script.objects st !! position) as [p|]; simpl; [|discriminate].
  destruct (Rlt_dec (radius * 0.2) 0); simpl; [discriminate|].
  intros [= <-]. eapply consistent_spawned; [exact Hc|reflexivity..].
Qed.

(** With a random source within [0, 1) the buttons of the panel hand
    the factories dimensions that no shape constructor rejects. *)
Lemma panel_returns `{Host} (st : Script.State) :
  unitRandom H ->
  (exists st', Script.debugObject_createSphere st = Script.Returns st') /\
  (exists st', Script.debugObject_createBox st = Script.Returns st') /\
  (exists st', Script.debugObject_createCylinder st = Script.Returns st').
Proof.
  intros Hrand.
  pose proof (Hrand (Script.randomCalls st)) as Hr0.
  unfold Script.debugObject_createSphere, Script.debugObject_createBox,
    Script.debugObject_createCylinder, Script.random, Script.new_object,
    Script.createSphere, Script.createBox, Script.createCylinder,
    CANNON.newSphere, CANNON.newCylinder.
  simpl. rewrite !lookup_insert_eq. simpl.
  split; [|split].
  - destruct (Rlt_dec _ 0) as [Hneg|_]; [exfalso; lra|]. eexists. reflexivity.
  - eexists. reflexivity.
  - destruct (Rlt_dec _ 0) as [Hneg|_]; [exfalso; lra|]. eexists. reflexivity.
Qed.

Lemma reset_consistent (st : Script.State) :
  Script.consistent st -> Script.consistent (Script.debugObject_reset st).
Proof.
  intros (Hsc & Hw & Hndm & Hndb & Hms & Hbs).
  pose proof (reset_loop_world_eq (Script.objectsToUpdate st) st) as Hw'.
  pose proof (reset_loop_scene_eq (Script.objectsToUpdate st) st) as Hsc'.
  destruct (reset_loop_keeps (Script.objectsToUpdate st) st) as (Hm' & _).
  assert (Hobjs : Script.objectsToUpdate (Script.debugObject_reset st) = [])
    by (unfold Script.debugObject_reset; simpl; apply splice_all).
  apply NoDup_cons in Hndb as [Hfloor _].
  unfold Script.consistent. rewrite Hobjs. unfold Script.debugObject_reset. simpl.
  rewrite Hw', Hsc', Hm', Hsc, Hw. simpl.
  split; [apply filter_keeps_none; intros x Hx Hn; exact (Hn Hx)|].
  split.
  { rewrite filter_cons. destruct (decide _) as [_|Hn]; [|contradiction].
    f_equal. apply filter_keeps_none. intros x Hx Hn. exact (Hn Hx). }
  split; [constructor|]. split; [apply NoDup_singleton|].
  split; [intros r Hr; inversion Hr|].
  intros r Hr. apply list_elem_of_singleton in Hr as ->.
  destruct (Hbs Script.floorBody ltac:(left)) as [fb Hfb].
  pose proof (reset_loop_body (Script.objectsToUpdate st) Script.floorBody st) as Hfl.
  rewrite Hfb in Hfl.
  destruct (Script.bodies (fold_left Script.resetObject (Script.objectsToUpdate st) st)
              !! Script.floorBody); [eauto|discriminate].
Qed.

Lemma tick_bodies_dom `{Host} (elapsedTime : R) (st : Script.State) :
  keepsBodies H ->
  dom (Script.bodies (Script.tick elapsedTime st)) = dom (Script.bodies st).
Proof.
  intros Hkeep.
  pose proof (step_keeps Script.internalStep
                (fun s => dom (Script.bodies s) = dom (Script.bodies st))) as Hk.
  specialize (Hk ltac:(intros dt w p <-;
                       destruct (internalStep_keeps dt w p) as (_ & _ & _ & -> & _);
                       apply Hkeep)
                 (1 / 60) (elapsedTime - Script.oldElapsedTime st) 3%nat
                 (Script.world st) (Script.set_oldElapsedTime elapsedTime st)
                 ltac:(reflexivity)).
  destruct (Script_tick_shape elapsedTime st) as (w & st1 & Heq & -> & _).
  rewrite Heq in Hk. exact Hk.
Qed.

Lemma tick_consistent `{Host} (elapsedTime : R) (st : Script.State) :
  keepsBodies H ->
  Script.consistent st -> Script.consistent (Script.tick elapsedTime st).
Proof.
  intros Hkeep.
  pose proof (tick_bodies_dom elapsedTime st Hkeep) as Hdom.
  destruct (Script_tick_shape elapsedTime st)
    as (w & st1 & _ & Htick & Hw & Hsc & Hms & _ & Hobjs).
  rewrite Htick in Hdom |- *. simpl in Hdom.
  apply consistent_ext; simpl; try assumption.
  - intros r Hr. rewrite Hobjs, Hms.
    destruct (sync_loop_shape (Script.bodies st1) (Script.objectsToUpdate st)
                r (Script.meshes st)) as (Hg & _).
    destruct Hr as [m Hm]. rewrite Hm in Hg.
    destruct (fold_left _ _ _ !! r); [eauto|discriminate].
  - intros r Hr. apply elem_of_dom. rewrite Hdom. now apply elem_of_dom.
Qed.

Lemma handle_consistent `{Host} (e : Script.Event) (st : Script.State) :
  keepsBodies H -> unitRandom H ->
  Script.consistent st -> Script.consistent (Script.handle st e).
Proof.
  intros Hkeep Hrand Hc.
  destruct (panel_returns st Hrand) as ((s1 & Hs1) & (s2 & Hs2) & (s3 & Hs3)).
  destruct e; unfold Script.handle.
  - now apply tick_consistent.
  - rewrite Hs1. simpl.
    unfold Script.debugObject_createSphere, Script.random, Script.new_object in Hs1.
    simpl in Hs1. eapply createSphere_consistent; [|exact Hs1].
    revert Hc. apply consistent_ext; auto.
  - rewrite Hs2. simpl.
    unfold Script.debugObject_createBox, Script.random, Script.new_object in Hs2.
    simpl in Hs2. eapply createBox_consistent; [|exact Hs2].
    revert Hc. apply consistent_ext; auto.
  - rewrite Hs3. simpl.
    unfold Script.debugObject_createCylinder, Script.random, Script.new_object in Hs3.
    simpl in Hs3. eapply createCylinder_consistent; [|exact Hs3].
    revert Hc. apply consistent_ext; auto.
  - now apply reset_consistent.
Qed.

Lemma run_consistent `{Host} (events : list Script.Event) :
  keepsBodies H -> unitRandom H ->
  forall st : Script.State,
    Script.consistent st -> Script.consistent (Script.run events st).
Proof.
  intros Hkeep Hrand. unfold Script.run.
  induction events as [|e events IH]; intros st Hc; simpl; [exact Hc|].
  apply IH. now apply handle_consistent.
Qed.

(** X1: whatever the buttons pressed and the frames delivered since the
    page was loaded, under an engine that neither creates nor destroys
    bodies and a random source within [0, 1), the registry, the scene
    and the world agree: the scene holds exactly the meshes of the
    tracked pairs, the world exactly the floor and their bodies, nothing
    is tracked twice, and every tracked mesh and body exists. *)
Theorem Script_always_consistent `{Host} (events : list Script.Event) :
  keepsBodies H -> unitRandom H ->
  Script.consistent (Script.run events Script.init).
Proof.
  intros Hkeep Hrand.
  apply run_consistent; [exact Hkeep|exact Hrand|exact consistent_init].
Qed.

Lemma freeFall_keepsBodies : keepsBodies freeFall.
Proof. intros dt w bs. simpl. apply dom_fmap_L. Qed.

Lemma freeFall_unitRandom : unitRandom freeFall.
Proof. intros n. simpl. lra. Qed.

Lemma Script_always_consistent_witness :
  keepsBodies freeFall /\ unitRandom freeFall /\
  Script.consistent (@Script.run freeFall session Script.init).
Proof.
  split; [exact freeFall_keepsBodies|]. split; [exact freeFall_unitRandom|].
  exact (@Script_always_consistent freeFall session freeFall_keepsBodies
           freeFall_unitRandom).
Defined.

(** X2: after every frame of a session, under an engine that neither
    creates nor destroys bodies and a random source within [0, 1), each
    tracked pair is in step: its mesh and its body exist and the mesh
    has the position and the orientation of the body. *)
Theorem Script_frame_mirrors `{Host} (events : list Script.Event) (elapsedTime : R) :
  keepsBodies H -> unitRandom H ->
  let st := Script.run events Script.init in
  let st' := Script.tick elapsedTime st in
  forall object : TrackedPair,
    object ∈ Script.objectsToUpdate st ->
    exists (b : CANNON.Body) (m : THREE.Mesh),
      Script.bodies st' !! body object = Some b /\
      Script.meshes st' !! mesh object = Some m /\
      THREE.position m = CANNON.position b /\
      THREE.quaternion m = CANNON.quaternion b.
Proof.
  intros Hkeep Hrand. simpl. set (st := Script.run events Script.init).
  intros object Hobject.
  pose proof (run_consistent events Hkeep Hrand Script.init consistent_init) as Hc.
  fold st in Hc.
  pose proof (tick_consistent elapsedTime st Hkeep Hc) as (_ & _ & _ & _ & Hms' & Hbs').
  destruct Hc as (_ & _ & Hnd & _).
  assert (Hobjs : Script.objectsToUpdate (Script.tick elapsedTime st)
                  = Script.objectsToUpdate st).
  { destruct (Script_tick_shape elapsedTime st) as (w & st1 & _ & -> & _ & _ & _ & _ & Ho).
    exact Ho. }
  rewrite Hobjs in Hms', Hbs'.
  destruct (Hms' (mesh object)) as [m Hm]; [apply list_elem_of_fmap; eauto|].
  destruct (Hbs' (body object)) as [b Hb]; [right; apply list_elem_of_fmap; eauto|].
  exists b, m. split; [exact Hb|]. split; [exact Hm|].
  exact (tick_mirrors_tracked elapsedTime st Hnd object b m Hobject Hb Hm).
Qed.

Lemma panel_sphere_registry :
  Script.objectsToUpdate (@Script.run freeFall [Script.ClickCreateSphere] Script.init)
  = [mkPair 0%nat 1%nat].
Proof.
  unfold Script.run, Script.handle, Script.debugObject_createSphere, Script.random,
    Script.new_object, Script.createSphere, CANNON.newSphere.
  simpl. rewrite lookup_insert_eq. simpl.
  destruct (Rlt_dec (0.5 * 0.5) 0) as [Hneg|_]; [exfalso; lra|].
  vm_compute. reflexivity.
Qed.

Lemma Script_frame_mirrors_witness :
  keepsBodies freeFall /\ unitRandom freeFall
  /\ mkPair 0%nat 1%nat
     ∈ Script.objectsToUpdate (@Script.run freeFall [Script.ClickCreateSphere] Script.init)
  /\ exists (b : CANNON.Body) (m : THREE.Mesh),
      Script.bodies
        (@Script.tick freeFall 1
           (@Script.run freeFall [Script.ClickCreateSphere] Script.init))
      !! 1%nat = Some b /\
      Script.meshes
        (@Script.tick freeFall 1
           (@Script.run freeFall [Script.ClickCreateSphere] Script.init))
      !! 0%nat = Some m /\
      THREE.position m = CANNON.position b /\
      THREE.quaternion m = CANNON.quaternion b.
Proof.
  assert (Hin : mkPair 0%nat 1%nat
                ∈ Script.objectsToUpdate
                    (@Script.run freeFall [Script.ClickCreateSphere] Script.init))
    by (rewrite panel_sphere_registry; left).
  split; [exact freeFall_keepsBodies|]. split; [exact freeFall_unitRandom|].
  split; [exact Hin|].
  exact (@Script_frame_mirrors freeFall [Script.ClickCreateSphere] 1
           freeFall_keepsBodies freeFall_unitRandom (mkPair 0%nat 1%nat) Hin).
Defined.

(** ** The buttons of the panel *)

(** X9: the sphere button always spawns: it draws three random numbers
    and appends one pair, a sphere whose radius lies in [0, 0.5) (zero
    is possible), whose mesh is scaled by that radius, and whose mesh
    and body both start at height 3 with [x] and [z] in [-1.5, 1.5). *)
Theorem panel_createSphere_spawns `{Host} (st : Script.State) :
  unitRandom H ->
  exists st' object m b radius,
    Script.debugObject_createSphere st = Script.Returns st' /\
    Script.objectsToUpdate st' = Script.objectsToUpdate st ++ [object] /\
    Script.meshes st' !! mesh object = Some m /\
    Script.bodies st' !! body object = Some b /\
    CANNON.shapes b = [CANNON.Sphere radius] /\
    THREE.scale m = Vec3.mk radius radius radius /\
    0 <= radius < 0.5 /\
    THREE.position m = CANNON.position b /\
    Vec3.y (CANNON.position b) = 3 /\
    -1.5 <= Vec3.x (CANNON.position b) < 1.5 /\
    -1.5 <= Vec3.z (CANNON.position b) < 1.5 /\
    Script.randomCalls st' = (Script.randomCalls st + 3)%nat.
Proof.
  intros Hrand.
  pose proof (Hrand (Script.randomCalls st)).
  pose proof (Hrand (S (Script.randomCalls st))).
  pose proof (Hrand (S (S (Script.randomCalls st)))).
  unfold Script.debugObject_createSphere, Script.random, Script.new_object,
    Script.createSphere, CANNON.newSphere. simpl. rewrite lookup_insert_eq. simpl.
  destruct (Rlt_dec _ 0) as [Hneg|_]; [exfalso; lra|].
  eexists. eexists (mkPair _ _). eexists. eexists. eexists.
  split; [reflexivity|]. simpl. split; [reflexivity|].
  split; [apply lookup_insert_eq|]. split; [apply lookup_insert_eq|]. simpl.
  repeat split; try reflexivity; try lra; lia.
Qed.

Lemma panel_createSphere_witness :
  unitRandom freeFall /\
  exists st' object m b radius,
    @Script.debugObject_createSphere freeFall Script.init = Script.Returns st' /\
    Script.objectsToUpdate st' = Script.objectsToUpdate Script.init ++ [object] /\
    Script.meshes st' !! mesh object = Some m /\
    Script.bodies st' !! body object = Some b /\
    CANNON.shapes b = [CANNON.Sphere radius] /\
    THREE.scale m = Vec3.mk radius radius radius /\
    0 <= radius < 0.5 /\
    THREE.position m = CANNON.position b /\
    Vec3.y (CANNON.position b) = 3 /\
    -1.5 <= Vec3.x (CANNON.position b) < 1.5 /\
    -1.5 <= Vec3.z (CANNON.position b) < 1.5 /\
    Script.randomCalls st' = (Script.randomCalls Script.init + 3)%nat.
Proof.
  split; [exact freeFall_unitRandom|].
  exact (@panel_createSphere_spawns freeFall Script.init freeFall_unitRandom).
Defined.

(** X10: the box button always spawns: it draws five random numbers and
    appends one pair, a box whose sides lie in [0, 1) (zero is
    possible), whose collision half-extents are half the sides its
    mesh is scaled to, and whose mesh and body both start at height 3
    with [x] and [z] in [-1.5, 1.5). *)
Theorem panel_createBox_spawns `{Host} (st : Script.State) :
  unitRandom H ->
  exists st' object m b width height depth,
    Script.debugObject_createBox st = Script.Returns st' /\
    Script.objectsToUpdate st' = Script.objectsToUpdate st ++ [object] /\
    Script.meshes st' !! mesh object = Some m /\
    Script.bodies st' !! body object = Some b /\
    CANNON.shapes b
    = [CANNON.Box (Vec3.mk (width * 0.5) (height * 0.5) (depth * 0.5))] /\
    THREE.scale m = Vec3.mk width height depth /\
    0 <= width < 1 /\ 0 <= height < 1 /\ 0 <= depth < 1 /\
    THREE.position m = CANNON.position b /\
    Vec3.y (CANNON.position b) = 3 /\
    -1.5 <= Vec3.x (CANNON.position b) < 1.5 /\
    -1.5 <= Vec3.z (CANNON.position b) < 1.5 /\
    Script.randomCalls st' = (Script.randomCalls st + 5)%nat.
Proof.
  intros Hrand.
  unfold Script.debugObject_createBox, Script.random, Script.new_object,
    Script.createBox. simpl. rewrite lookup_insert_eq. simpl.
  eexists. eexists (mkPair _ _). eexists. eexists. eexists. eexists. eexists.
  split; [reflexivity|]. simpl. split; [reflexivity|].
  split; [apply lookup_insert_eq|]. split; [apply lookup_insert_eq|]. simpl.
  pose proof (Hrand (Script.randomCalls st)).
  pose proof (Hrand (S (Script.randomCalls st))).
  pose proof (Hrand (S (S (Script.randomCalls st)))).
  pose proof (Hrand (S (S (S (Script.randomCalls st))))).
  pose proof (Hrand (S (S (S (S (Script.randomCalls st)))))).
  repeat split; try reflexivity; try lra; lia.
Qed.

Lemma panel_createBox_witness :
  unitRandom freeFall /\
  exists st' object m b width height depth,
    @Script.debugObject_createBox freeFall Script.init = Script.Returns st' /\
    Script.objectsToUpdate st' = Script.objectsToUpdate Script.init ++ [object] /\
    Script.meshes st' !! mesh object = Some m /\
    Script.bodies st' !! body object = Some b /\
    CANNON.shapes b
    = [CANNON.Box (Vec3.mk (width * 0.5) (height * 0.5) (depth * 0.5))] /\
    THREE.scale m = Vec3.mk width height depth /\
    0 <= width < 1 /\ 0 <= height < 1 /\ 0 <= depth < 1 /\
    THREE.position m = CANNON.position b /\
    Vec3.y (CANNON.position b) = 3 /\
    -1.5 <= Vec3.x (CANNON.position b) < 1.5 /\
    -1.5 <= Vec3.z (CANNON.position b) < 1.5 /\
    Script.randomCalls st' = (Script.randomCalls Script.init + 5)%nat.
Proof.
  split; [exact freeFall_unitRandom|].
  exact (@panel_createBox_spawns freeFall Script.init freeFall_unitRandom).
Defined.

(** X11: the cylinder button always spawns: it draws four random
    numbers and appends one pair, a cylinder that is never degenerate,
    with a radius in [0.1, 0.2) and a height in [0.25, 1), whose mesh
    and body both start with their centre half that height above 3 and
    with [x] and [z] in [-1.5, 1.5). *)
Theorem panel_createCylinder_spawns `{Host} (st : Script.State) :
  unitRandom H ->
  exists st' object m b radius height,
    Script.debugObject_createCylinder st = Script.Returns st' /\
    Script.objectsToUpdate st' = Script.objectsToUpdate st ++ [object] /\
    Script.meshes st' !! mesh object = Some m /\
    Script.bodies st' !! body object = Some b /\
    CANNON.shapes b = [CANNON.Cylinder radius radius height 32] /\
    THREE.geometry m = THREE.CylinderGeometry radius radius height 32 /\
    0.1 <= radius < 0.2 /\ 0.25 <= height < 1 /\
    THREE.position m = CANNON.position b /\
    Vec3.y (CANNON.position b) - height / 2 = 3 /\
    -1.5 <= Vec3.x (CANNON.position b) < 1.5 /\
    -1.5 <= Vec3.z (CANNON.position b) < 1.5 /\
    Script.randomCalls st' = (Script.randomCalls st + 4)%nat.
Proof.
  intros Hrand.
  pose proof (Hrand (Script.randomCalls st)).
  pose proof (Hrand (S (Script.randomCalls st))).
  pose proof (Hrand (S (S (Script.randomCalls st)))).
  pose proof (Hrand (S (S (S (Script.randomCalls st))))).
  unfold Script.debugObject_createCylinder, Script.random, Script.new_object,
    Script.createCylinder, CANNON.newCylinder. simpl. rewrite lookup_insert_eq. simpl.
  destruct (Rlt_dec _ 0) as [Hneg|_]; [exfalso; lra|].
  eexists. eexists (mkPair _ _). eexists. eexists. eexists. eexists.
  split; [reflexivity|]. simpl. split; [reflexivity|].
  split; [apply lookup_insert_eq|]. split; [apply lookup_insert_eq|]. simpl.
  repeat split; try reflexivity; try lra; lia.
Qed.

Lemma panel_createCylinder_witness :
  unitRandom freeFall /\
  exists st' object m b radius height,
    @Script.debugObject_createCylinder freeFall Script.init = Script.Returns st' /\
    Script.objectsToUpdate st' = Script.objectsToUpdate Script.init ++ [object] /\
    Script.meshes st' !! mesh object = Some m /\
    Script.bodies st' !! body object = Some b /\
    CANNON.shapes b = [CANNON.Cylinder radius radius height 32] /\
    THREE.geometry m = THREE.CylinderGeometry radius radius height 32 /\
    0.1 <= radius < 0.2 /\ 0.25 <= height < 1 /\
    THREE.position m = CANNON.position b /\
    Vec3.y (CANNON.position b) - height / 2 = 3 /\
    -1.5 <= Vec3.x (CANNON.position b) < 1.5 /\
    -1.5 <= Vec3.z (CANNON.position b) < 1.5 /\
    Script.randomCalls st' = (Script.randomCalls Script.init + 4)%nat.
Proof.
  split; [exact freeFall_unitRandom|].
  exact (@panel_createCylinder_spawns freeFall Script.init freeFall_unitRandom).
Defined.

(** ** The sound over a session *)

(** Whatever [playHitSound] keeps, a frame keeps. *)
Lemma tick_sound_keeps `{Host} (Q : Script.Audio -> nat -> Prop) :
  (forall c st, Q (Script.hitSound st) (Script.randomCalls st) ->
                Q (Script.hitSound (Script.playHitSound c st))
                  (Script.randomCalls (Script.playHitSound c st))) ->
  forall elapsedTime st,
    Q (Script.hitSound st) (Script.randomCalls st) ->
    Q (Script.hitSound (Script.tick elapsedTime st))
      (Script.randomCalls (Script.tick elapsedTime st)).
Proof.
  intros Hplay elapsedTime st Hst.
  assert (Hdispatch : forall type c s,
             Q (Script.hitSound s) (Script.randomCalls s) ->
             Q (Script.hitSound (Script.dispatchEvent type c s))
               (Script.randomCalls (Script.dispatchEvent type c s))).
  { intros type c s. unfold Script.dispatchEvent.
    destruct (Script.bodies s !! CANNON.target c) as [b|]; [|auto].
    generalize (CANNON.listeners b). intros l. revert s.
    induction l as [|[ty f] l IH]; intros s Hs; simpl; [exact Hs|].
    apply IH. destruct (decide (ty = type)); [|exact Hs].
    destruct f. simpl. now apply Hplay. }
  assert (Hstep : forall dt w s,
             Q (Script.hitSound s) (Script.randomCalls s) ->
             Q (Script.hitSound (Script.internalStep dt w s))
               (Script.randomCalls (Script.internalStep dt w s))).
  { intros dt w s Hs. unfold Script.internalStep.
    destruct (integrate dt w (Script.bodies s)) as [moved collisions].
    assert (Hs' : Q (Script.hitSound (Script.set_bodies moved s))
                    (Script.randomCalls (Script.set_bodies moved s))) by exact Hs.
    revert Hs'. generalize (Script.set_bodies moved s). clear Hs.
    induction collisions as [|c cs IH]; intros s' Hs'; simpl; [exact Hs'|].
    apply IH, Hdispatch, Hs'. }
  pose proof (step_keeps Script.internalStep
                (fun s => Q (Script.hitSound s) (Script.randomCalls s)) Hstep
                (1 / 60) (elapsedTime - Script.oldElapsedTime st) 3%nat
                (Script.world st) (Script.set_oldElapsedTime elapsedTime st) Hst) as Hk.
  destruct (Script_tick_shape elapsedTime st) as (w & st1 & Heq & -> & _).
  rewrite Heq in Hk. exact Hk.
Qed.

Lemma panel_keeps_sound `{Host} (st : Script.State) :
  Script.hitSound (Script.after (Script.debugObject_createSphere st))
  = Script.hitSound st /\
  Script.hitSound (Script.after (Script.debugObject_createBox st))
  = Script.hitSound st /\
  Script.hitSound (Script.after (Script.debugObject_createCylinder st))
  = Script.hitSound st.
Proof.
  unfold Script.debugObject_createSphere, Script.debugObject_createBox,
    Script.debugObject_createCylinder, Script.random, Script.new_object,
    Script.createSphere, Script.createBox, Script.createCylinder,
    CANNON.newSphere, CANNON.newCylinder.
  simpl. rewrite !lookup_insert_eq. simpl.
  split; [|split].
  - destruct (Rlt_dec _ 0); reflexivity.
  - reflexivity.
  - destruct (Rlt_dec _ 0); reflexivity.
Qed.

(** X7: over a whole session the volume of the sound stays within
    [0, 1], the range an audio element accepts, as long as the random
    source stays within [0, 1). *)
Theorem volume_always_valid `{Host} (events : list Script.Event) :
  unitRandom H ->
  0 <= Script.volume (Script.hitSound (Script.run events Script.init)) <= 1.
Proof.
  intros Hrand. unfold Script.run.
  assert (Hinit : 0 <= Script.volume (Script.hitSound Script.init) <= 1)
    by (simpl; lra).
  revert Hinit. generalize Script.init.
  induction events as [|e events IH]; intros st Hst; simpl; [exact Hst|].
  apply IH. destruct e; unfold Script.handle.
  - apply (tick_sound_keeps (fun a _ => 0 <= Script.volume a <= 1)); [|exact Hst].
    intros c s Hs. unfold Script.playHitSound. simpl.
    destruct (Rgt_dec _ _); simpl; [|exact Hs].
    specialize (Hrand (Script.randomCalls s)). lra.
  - destruct (panel_keeps_sound st) as (-> & _). exact Hst.
  - destruct (panel_keeps_sound st) as (_ & -> & _). exact Hst.
  - destruct (panel_keeps_sound st) as (_ & _ & ->). exact Hst.
  - unfold Script.debugObject_reset. simpl.
    destruct (reset_loop_keeps (Script.objectsToUpdate st) st) as (_ & _ & _ & -> & _).
    exact Hst.
Qed.

Lemma volume_always_valid_witness :
  unitRandom freeFall /\
  0 <= Script.volume (Script.hitSound (@Script.run freeFall session Script.init)) <= 1.
Proof.
  split; [exact freeFall_unitRandom|].
  exact (@volume_always_valid freeFall session freeFall_unitRandom).
Defined.

(** X8: a frame draws exactly one random number for each sound it
    plays, and draws none otherwise. *)
Theorem tick_draws_once_per_sound `{Host} (elapsedTime : R) (st : Script.State) :
  let st' := Script.tick elapsedTime st in
  (Script.randomCalls st' + Script.plays (Script.hitSound st)
   = Script.randomCalls st + Script.plays (Script.hitSound st'))%nat /\
  (Script.plays (Script.hitSound st) <= Script.plays (Script.hitSound st'))%nat.
Proof.
  simpl.
  apply (tick_sound_keeps
           (fun a n => (n + Script.plays (Script.hitSound st)
                        = Script.randomCalls st + Script.plays a)%nat /\
                       (Script.plays (Script.hitSound st) <= Script.plays a)%nat));
    [|split; lia].
  intros c s [Hs Hle]. unfold Script.playHitSound. simpl.
  destruct (Rgt_dec _ _); simpl; split; lia.
Qed.

(** ** Orientation at creation *)

(** X12: a freshly spawned cylinder is out of step in orientation: its
    mesh is unrotated while its body is turned a quarter turn about the
    x axis, so the two differ until the first frame copies the pose;
    a freshly spawned sphere or box has mesh and body both unrotated. *)
Theorem spawn_orientation (st : Script.State) (position : ref) (p : Vec3.t) :
  Script.objects st !! position = Some p ->
  (forall radius height : R,
      0 <= radius ->
      exists st' object m b,
        Script.createCylinder radius height position st = Script.Returns st' /\
        last (Script.objectsToUpdate st') = Some object /\
        Script.meshes st' !! mesh object = Some m /\
        Script.bodies st' !! body object = Some b /\
        THREE.quaternion m = Quaternion.identity /\
        CANNON.quaternion b
        = Quaternion.mk (sin (PI / 4)) 0 0 (cos (PI / 4)) /\
        THREE.quaternion m <> CANNON.quaternion b)
  /\ (forall radius : R,
      0 <= radius ->
      exists st' object m b,
        Script.createSphere radius position st = Script.Returns st' /\
        last (Script.objectsToUpdate st') = Some object /\
        Script.meshes st' !! mesh object = Some m /\
        Script.bodies st' !! body object = Some b /\
        THREE.quaternion m = Quaternion.identity /\
        CANNON.quaternion b = Quaternion.identity)
  /\ (forall width height depth : R,
      exists st' object m b,
        Script.createBox width height depth position st = Script.Returns st' /\
        last (Script.objectsToUpdate st') = Some object /\
        Script.meshes st' !! mesh object = Some m /\
        Script.bodies st' !! body object = Some b /\
        THREE.quaternion m = Quaternion.identity /\
        CANNON.quaternion b = Quaternion.identity).
Proof.
  intros Hpos. split; [|split]; intros; spawn Hpos;
    (eexists; eexists (mkPair _ _); eexists; eexists;
     split; [reflexivity|]; simpl;
     split; [apply last_snoc|];
     split; [apply lookup_insert_eq|];
     split; [apply lookup_insert_eq|]; simpl).
  - assert (Hq : PI / 2 * 0.5 = PI / 4) by lra.
    unfold Quaternion.setFromAxisAngle. simpl. rewrite Hq.
    split; [reflexivity|]. split; [f_equal; lra|].
    unfold Quaternion.identity. intros [= Hx _].
    assert (0 < sin (PI / 4)); [|lra].
    pose proof PI_RGT_0. apply sin_gt_0; lra.
  - split; reflexivity.
  - split; reflexivity.
Qed.

Lemma spawn_orientation_witness :
  Script.objects withPosition.2 !! withPosition.1 = Some (Vec3.mk 0 3 0)
  /\ 0 <= 1
  /\ exists st' object m b,
      Script.createCylinder 1 2 withPosition.1 withPosition.2 = Script.Returns st' /\
      last (Script.objectsToUpdate st') = Some object /\
      Script.meshes st' !! mesh object = Some m /\
      Script.bodies st' !! body object = Some b /\
      THREE.quaternion m = Quaternion.identity /\
      CANNON.quaternion b = Quaternion.mk (sin (PI / 4)) 0 0 (cos (PI / 4)) /\
      THREE.quaternion m <> CANNON.quaternion b.
Proof.
  assert (Hr : 0 <= 1) by lra.
  split; [exact withPosition_allocated|]. split; [exact Hr|].
  exact (proj1 (spawn_orientation withPosition.2 withPosition.1 (Vec3.mk 0 3 0)
                  withPosition_allocated) 1 2 Hr).
Defined.

(** ** The launch variant: the launch *)

(** X13: the launch gives the ball a kinetic energy that does not
    depend on the mass: with a positive mass [m] and speed setting [s]
    the velocity [v] it sets satisfies [m * |v|^2 = s^2]. *)
Theorem launch_energy `{Host} (st : Launch.State) :
  is_Some (Launch.bodies st !! Launch.ballBody) ->
  0 < Launch.mass (Launch.settings st) ->
  exists b',
    Launch.bodies (Launch.launch st) !! Launch.ballBody = Some b' /\
    let v := CANNON.velocity b' in
    Launch.mass (Launch.settings st)
    * (Vec3.x v * Vec3.x v + Vec3.y v * Vec3.y v + Vec3.z v * Vec3.z v)
    = Launch.velocity (Launch.settings st) * Launch.velocity (Launch.settings st).
Proof.
  intros [b Hb] Hm. eexists. split.
  - unfold Launch.launch. simpl. rewrite lookup_alter_eq, Hb. reflexivity.
  - simpl.
    set (a := Launch.angle (Launch.settings st) * PI / 180).
    set (s := Launch.velocity (Launch.settings st)).
    set (m := Launch.mass (Launch.settings st)) in *.
    pose proof (sqrt_lt_R0 m Hm) as Hq.
    pose proof (sqrt_sqrt m (Rlt_le _ _ Hm)) as Hqq.
    pose proof (sin2_cos2 a) as Hsc. unfold Rsqr in Hsc.
    set (q := sqrt m) in *. set (c := cos a) in *. set (sn := sin a) in *.
    replace (s * (1 / q) * c * (s * (1 / q) * c)
             + s * (1 / q) * sn * (s * (1 / q) * sn) + 0 * 0)
      with (s * s * (sn * sn + c * c) / (q * q)) by (field; lra).
    rewrite Hsc, Hqq. field. lra.
Qed.

Lemma launch_energy_witness :
  is_Some (Launch.bodies Launch.init !! Launch.ballBody)
  /\ 0 < Launch.mass (Launch.settings Launch.init)
  /\ exists b',
      Launch.bodies (@Launch.launch freeFall Launch.init) !! Launch.ballBody = Some b' /\
      let v := CANNON.velocity b' in
      Launch.mass (Launch.settings Launch.init)
      * (Vec3.x v * Vec3.x v + Vec3.y v * Vec3.y v + Vec3.z v * Vec3.z v)
      = Launch.velocity (Launch.settings Launch.init)
        * Launch.velocity (Launch.settings Launch.init).
Proof.
  assert (Hm : 0 < Launch.mass (Launch.settings Launch.init)) by (simpl; lra).
  split; [exact init_ballBody|]. split; [exact Hm|].
  exact (@launch_energy freeFall Launch.init init_ballBody Hm).
Defined.

(** X14: within the ranges of the panel (angle between 0 and 90
    degrees, speed at least 0, mass positive) the ball is launched
    forward and upward, never backward or downward, and never
    sideways. *)
Theorem launch_forward_and_up `{Host} (st : Launch.State) :
  is_Some (Launch.bodies st !! Launch.ballBody) ->
  0 <= Launch.angle (Launch.settings st) <= 90 ->
  0 <= Launch.velocity (Launch.settings st) ->
  0 < Launch.mass (Launch.settings st) ->
  exists b',
    Launch.bodies (Launch.launch st) !! Launch.ballBody = Some b' /\
    0 <= Vec3.x (CANNON.velocity b') /\
    0 <= Vec3.y (CANNON.velocity b') /\
    Vec3.z (CANNON.velocity b') = 0.
Proof.
  intros [b Hb] Ha Hs Hm. eexists. split.
  - unfold Launch.launch. simpl. rewrite lookup_alter_eq, Hb. reflexivity.
  - simpl. pose proof PI_RGT_0 as Hpi.
    pose proof (sqrt_lt_R0 _ Hm) as Hq.
    assert (Hadj : 0 <= Launch.velocity (Launch.settings st)
                        * (1 / sqrt (Launch.mass (Launch.settings st)))).
    { apply Rmult_le_pos; [exact Hs|].
      apply Rlt_le, Rdiv_lt_0_compat; lra. }
    assert (Hlo : 0 <= Launch.angle (Launch.settings st) * PI / 180) by nra.
    assert (Hhi : Launch.angle (Launch.settings st) * PI / 180 <= PI / 2) by nra.
    split; [|split; [|reflexivity]].
    + apply Rmult_le_pos; [exact Hadj|]. apply cos_ge_0; lra.
    + apply Rmult_le_pos; [exact Hadj|]. apply sin_ge_0; lra.
Qed.

Lemma launch_forward_and_up_witness :
  is_Some (Launch.bodies Launch.init !! Launch.ballBody)
  /\ 0 <= Launch.angle (Launch.settings Launch.init) <= 90
  /\ 0 <= Launch.velocity (Launch.settings Launch.init)
  /\ 0 < Launch.mass (Launch.settings Launch.init)
  /\ exists b',
      Launch.bodies (@Launch.launch freeFall Launch.init) !! Launch.ballBody = Some b' /\
      0 <= Vec3.x (CANNON.velocity b') /\
      0 <= Vec3.y (CANNON.velocity b') /\
      Vec3.z (CANNON.velocity b') = 0.
Proof.
  assert (Ha : 0 <= Launch.angle (Launch.settings Launch.init) <= 90) by (simpl; lra).
  assert (Hs : 0 <= Launch.velocity (Launch.settings Launch.init)) by (simpl; lra).
  assert (Hm : 0 < Launch.mass (Launch.settings Launch.init)) by (simpl; lra).
  split; [exact init_ballBody|]. split; [exact Ha|]. split; [exact Hs|].
  split; [exact Hm|].
  exact (@launch_forward_and_up freeFall Launch.init init_ballBody Ha Hs Hm).
Defined.

(** ** The launch variant: reset, frames and sessions *)

(** X15: [settings.reset] puts the ball at rest at the launch point
    [(-7, launchHeight, 0)] and does nothing else: the mass, the
    orientation and the shape of the ball, every other body, the
    meshes, the world and the settings are as before; a second reset
    changes nothing. *)
Theorem Launch_reset_rests (st : Launch.State) :
  is_Some (Launch.bodies st !! Launch.ballBody) ->
  (exists b b',
      Launch.bodies st !! Launch.ballBody = Some b /\
      Launch.bodies (Launch.reset st) !! Launch.ballBody = Some b' /\
      CANNON.position b'
      = Vec3.mk (-7) (Launch.launchHeight (Launch.settings st)) 0 /\
      CANNON.velocity b' = Vec3.mk 0 0 0 /\
      CANNON.angularVelocity b' = Vec3.mk 0 0 0 /\
      CANNON.mass b' = CANNON.mass b /\
      CANNON.quaternion b' = CANNON.quaternion b /\
      CANNON.shapes b' = CANNON.shapes b)
  /\ (forall r : ref,
      r <> Launch.ballBody ->
      Launch.bodies (Launch.reset st) !! r = Launch.bodies st !! r)
  /\ Launch.meshes (Launch.reset st) = Launch.meshes st
  /\ Launch.world (Launch.reset st) = Launch.world st
  /\ Launch.settings (Launch.reset st) = Launch.settings st
  /\ Launch.reset (Launch.reset st) = Launch.reset st.
Proof.
  intros [b Hb]. split; [|split; [|split; [|split; [|split]]]]; try reflexivity.
  - exists b. eexists. split; [exact Hb|]. split.
    + unfold Launch.reset. simpl. rewrite lookup_alter_eq, Hb. reflexivity.
    + simpl. repeat split; reflexivity.
  - intros r Hr. unfold Launch.reset. simpl. now rewrite lookup_alter_ne.
  - unfold Launch.reset, Launch.set_bodies. simpl. f_equal.
    apply map_eq. intros r.
    destruct (decide (r = Launch.ballBody)) as [->|Hne].
    + rewrite !lookup_alter_eq, Hb. reflexivity.
    + rewrite !lookup_alter_ne by congruence. reflexivity.
Qed.

Lemma init_groundBody_other : Launch.groundBody <> Launch.ballBody.
Proof. discriminate. Qed.

Lemma Launch_reset_rests_witness :
  is_Some (Launch.bodies Launch.init !! Launch.ballBody)
  /\ Launch.groundBody <> Launch.ballBody
  /\ Launch.bodies (Launch.reset Launch.init) !! Launch.groundBody
     = Launch.bodies Launch.init !! Launch.groundBody.
Proof.
  split; [exact init_ballBody|]. split; [exact init_groundBody_other|].
  exact (proj1 (proj2 (Launch_reset_rests Launch.init init_ballBody))
           Launch.groundBody init_groundBody_other).
Defined.

(** How [tick] of the launch variant is put together. *)
Lemma Launch_tick_shape `{Host} (elapsedTime : R) (st : Launch.State) :
  exists (w : CANNON.World) (bs : gmap ref CANNON.Body),
    CANNON.step Launch.internalStep (1 / 80)
      (elapsedTime - Launch.oldElapsedTime st) 3 (Launch.world st)
      (Launch.bodies st) = (w, bs) /\
    Launch.tick elapsedTime st
    = Launch.mkState (Launch.settings st) (Launch.scene st) w
        (fold_left (syncObject bs) (Launch.objectsToUpdate st) (Launch.meshes st))
        bs (Launch.objectsToUpdate st) elapsedTime /\
    CANNON.bodies w = CANNON.bodies (Launch.world st) /\
    CANNON.gravity w = CANNON.gravity (Launch.world st).
Proof.
  unfold Launch.tick. simpl.
  pose proof (step_world Launch.internalStep (1 / 80)
                (elapsedTime - Launch.oldElapsedTime st) 3 (Launch.world st)
                (Launch.bodies st)) as (Hw & Hg & _).
  destruct (CANNON.step _ _ _ _ _ _) as [w bs]. simpl in *.
  exists w, bs. auto.
Qed.

(** What a session of the launch variant never changes. *)
Lemma Launch_handle_keeps `{Host} (e : Launch.Event) (st : Launch.State) :
  let st' := Launch.handle st e in
  Launch.objectsToUpdate st' = Launch.objectsToUpdate st /\
  Launch.scene st' = Launch.scene st /\
  CANNON.bodies (Launch.world st') = CANNON.bodies (Launch.world st) /\
  CANNON.gravity (Launch.world st') = CANNON.gravity (Launch.world st) /\
  (forall r : ref,
      THREE.geometry <$> Launch.meshes st' !! r
      = THREE.geometry <$> Launch.meshes st !! r) /\
  (forall r : ref,
      r ∉ mesh <$> Launch.objectsToUpdate st ->
      Launch.meshes st' !! r = Launch.meshes st !! r).
Proof.
  destruct e; simpl; try (repeat split; reflexivity).
  destruct (Launch_tick_shape elapsedTime st) as (w & bs & _ & -> & Hw & Hg). simpl.
  split; [reflexivity|]. split; [reflexivity|].
  split; [exact Hw|]. split; [exact Hg|]. split.
  - intros r. exact (proj1 (sync_loop_shape bs _ r _)).
  - intros r Hr. now apply sync_loop_other.
Qed.

Lemma Launch_run_structured `{Host} (events : list Launch.Event)
      (gm : option THREE.Mesh) :
  forall st : Launch.State,
    (Launch.objectsToUpdate st = [mkPair Launch.ball Launch.ballBody] /\
     Launch.scene st = [Launch.ball; Launch.ground] /\
     CANNON.bodies (Launch.world st) = [Launch.groundBody; Launch.ballBody] /\
     CANNON.gravity (Launch.world st) = Vec3.mk 0 (-9.82) 0 /\
     Launch.meshes st !! Launch.ground = gm /\
     THREE.geometry <$> Launch.meshes st !! Launch.ball
     = Some (THREE.SphereGeometry 0.25 16 16)) ->
    let st' := Launch.run events st in
    Launch.objectsToUpdate st' = [mkPair Launch.ball Launch.ballBody] /\
    Launch.scene st' = [Launch.ball; Launch.ground] /\
    CANNON.bodies (Launch.world st') = [Launch.groundBody; Launch.ballBody] /\
    CANNON.gravity (Launch.world st') = Vec3.mk 0 (-9.82) 0 /\
    Launch.meshes st' !! Launch.ground = gm /\
    THREE.geometry <$> Launch.meshes st' !! Launch.ball
    = Some (THREE.SphereGeometry 0.25 16 16).
Proof.
  unfold Launch.run.
  induction events as [|e events IH]; intros st Hst; simpl; [exact Hst|].
  apply IH. destruct Hst as (Hobjs & Hsc & Hw & Hg & Hgr & Hball).
  destruct (Launch_handle_keeps e st) as (-> & -> & -> & -> & Hshape & Hother).
  rewrite Hshape, Hother; [auto 10|].
  rewrite Hobjs. simpl. rewrite list_elem_of_singleton. discriminate.
Qed.

(** X16: whatever the frames and the operations of the panel since the
    page was loaded, the launch variant tracks the one pair of the ball,
    the scene holds the ball and the ground, the world holds the ground
    body and the ball body under the gravity set at start-up, the mesh
    of the ground has never been written and the ball is still the
    sphere of radius 0.25. *)
Theorem Launch_always_structured `{Host} (events : list Launch.Event) :
  let st := Launch.run events Launch.init in
  Launch.objectsToUpdate st = [mkPair Launch.ball Launch.ballBody] /\
  Launch.scene st = [Launch.ball; Launch.ground] /\
  CANNON.bodies (Launch.world st) = [Launch.groundBody; Launch.ballBody] /\
  CANNON.gravity (Launch.world st) = Vec3.mk 0 (-9.82) 0 /\
  Launch.meshes st !! Launch.ground = Launch.meshes Launch.init !! Launch.ground /\
  THREE.geometry <$> Launch.meshes st !! Launch.ball
  = Some (THREE.SphereGeometry 0.25 16 16).
Proof.
  apply Launch_run_structured. repeat split; reflexivity.
Qed.

(** The ball body survives a session under an engine that destroys no
    body. *)
Lemma Launch_handle_bodies_dom `{Host} (e : Launch.Event) (st : Launch.State) :
  keepsBodies H ->
  dom (Launch.bodies (Launch.handle st e)) = dom (Launch.bodies st).
Proof.
  intros Hkeep. destruct e; simpl; try reflexivity; try apply dom_alter_L.
  destruct (Launch_tick_shape elapsedTime st) as (w & bs & Heq & -> & _). simpl.
  pose proof (step_keeps Launch.internalStep
                (fun s => dom s = dom (Launch.bodies st))) as Hk.
  specialize (Hk ltac:(intros dt w' p <-; apply Hkeep)
                 (1 / 80) (elapsedTime - Launch.oldElapsedTime st) 3%nat
                 (Launch.world st) (Launch.bodies st) ltac:(reflexivity)).
  rewrite Heq in Hk. exact Hk.
Qed.

Lemma Launch_run_bodies_dom `{Host} (events : list Launch.Event) :
  keepsBodies H ->
  forall st : Launch.State,
    dom (Launch.bodies (Launch.run events st)) = dom (Launch.bodies st).
Proof.
  intros Hkeep. unfold Launch.run.
  induction events as [|e events IH]; intros st; simpl; [reflexivity|].
  rewrite IH. now apply Launch_handle_bodies_dom.
Qed.

(** X17: in the launch variant, after any session and under an engine
    that destroys no body, a frame leaves the mesh of the ball with the
    position and the orientation of the ball body. *)
Theorem Launch_frame_mirrors_ball `{Host} (events : list Launch.Event)
        (elapsedTime : R) :
  keepsBodies H ->
  let st' := Launch.tick elapsedTime (Launch.run events Launch.init) in
  exists (b : CANNON.Body) (m : THREE.Mesh),
    Launch.bodies st' !! Launch.ballBody = Some b /\
    Launch.meshes st' !! Launch.ball = Some m /\
    THREE.position m = CANNON.position b /\
    THREE.quaternion m = CANNON.quaternion b.
Proof.
  intros Hkeep. simpl.
  set (st := Launch.run events Launch.init).
  destruct (Launch_run_structured events (Launch.meshes Launch.init !! Launch.ground)
              Launch.init ltac:(repeat split; reflexivity))
    as (Hobjs & _ & _ & _ & _ & Hball).
  fold st in Hobjs, Hball.
  assert (Hdom : dom (Launch.bodies (Launch.tick elapsedTime st))
                 = dom (Launch.bodies Launch.init)).
  { change (Launch.tick elapsedTime st) with (Launch.handle st (Launch.Frame elapsedTime)).
    rewrite Launch_handle_bodies_dom by exact Hkeep.
    now apply Launch_run_bodies_dom. }
  assert (Hb : is_Some (Launch.bodies (Launch.tick elapsedTime st) !! Launch.ballBody)).
  { apply elem_of_dom. rewrite Hdom. apply elem_of_dom. exact init_ballBody. }
  destruct Hb as [b Hb]. exists b.
  destruct (Launch_tick_shape elapsedTime st) as (w & bs & _ & Htick & _).
  rewrite Htick in Hb |- *. simpl in Hb |- *. rewrite Hobjs. simpl.
  rewrite syncObject_lookup. simpl. rewrite Hb.
  destruct (decide (Launch.ball = Launch.ball)); [|congruence].
  destruct (Launch.meshes st !! Launch.ball) as [m|]; [|discriminate].
  simpl. eexists. split; [reflexivity|]. split; [reflexivity|]. split; reflexivity.
Qed.

Lemma Launch_frame_mirrors_ball_witness :
  keepsBodies freeFall /\
  exists (b : CANNON.Body) (m : THREE.Mesh),
    Launch.bodies (@Launch.tick freeFall 3 (@Launch.run freeFall airOn Launch.init))
    !! Launch.ballBody = Some b /\
    Launch.meshes (@Launch.tick freeFall 3 (@Launch.run freeFall airOn Launch.init))
    !! Launch.ball = Some m /\
    THREE.position m = CANNON.position b /\
    THREE.quaternion m = CANNON.quaternion b.
Proof.
  split; [exact freeFall_keepsBodies|].
  exact (@Launch_frame_mirrors_ball freeFall airOn 3 freeFall_keepsBodies).
Defined.

(** ** What a spawn keeps *)

Lemma insert_fresh_keeps {A} (store : gmap ref A) (new : A) (r : ref) (old : A) :
  store !! r = Some old -> <[fresh (dom store) := new]> store !! r = Some old.
Proof.
  intros Hr. rewrite lookup_insert_ne; [exact Hr|].
  intros <-. pose proof (is_fresh (dom store)) as Hf.
  apply Hf, elem_of_dom. eauto.
Qed.

(** X18: a spawn overwrites nothing.  Every mesh and every body that
    existed before the call is unchanged after it, the pairs tracked
    before are still tracked, in the same order, and the sound and the
    accumulated time of the world are as before. *)
Theorem spawn_keeps_existing (st : Script.State) (position : ref) (p : Vec3.t) :
  Script.objects st !! position = Some p ->
  let kept (st' : Script.State) :=
    (forall r m, Script.meshes st !! r = Some m -> Script.meshes st' !! r = Some m) /\
    (forall r b, Script.bodies st !! r = Some b -> Script.bodies st' !! r = Some b) /\
    (exists object, Script.objectsToUpdate st' = Script.objectsToUpdate st ++ [object]) /\
    Script.hitSound st' = Script.hitSound st /\
    CANNON.accumulator (Script.world st') = CANNON.accumulator (Script.world st) in
  (forall radius : R,
      0 <= radius ->
      exists st', Script.createSphere radius position st = Script.Returns st' /\ kept st')
  /\ (forall width height depth : R,
      exists st',
        Script.createBox width height depth position st = Script.Returns st' /\ kept st')
  /\ (forall radius height : R,
      0 <= radius ->
      exists st',
        Script.createCylinder radius height position st = Script.Returns st' /\ kept st').
Proof.
  intros Hpos kept. unfold kept.
  split; [|split]; intros; spawn Hpos;
    (eexists; split; [reflexivity|]; simpl;
     split; [intros r m; apply insert_fresh_keeps|];
     split; [intros r b; apply insert_fresh_keeps|];
     split; [eexists; reflexivity|];
     split; reflexivity).
Qed.

Lemma floor_allocated :
  exists b, Script.bodies withPosition.2 !! Script.floorBody = Some b.
Proof. eexists. unfold withPosition. simpl. apply lookup_singleton_eq. Qed.

Lemma spawn_keeps_existing_witness :
  Script.objects withPosition.2 !! withPosition.1 = Some (Vec3.mk 0 3 0)
  /\ 0 <= 1
  /\ exists st',
      Script.createCylinder 1 2 withPosition.1 withPosition.2 = Script.Returns st' /\
      Script.bodies st' !! Script.floorBody
      = Script.bodies withPosition.2 !! Script.floorBody.
Proof.
  assert (Hr : 0 <= 1) by lra.
  split; [exact withPosition_allocated|]. split; [exact Hr|].
  destruct (proj2 (proj2 (spawn_keeps_existing withPosition.2 withPosition.1
                            (Vec3.mk 0 3 0) withPosition_allocated)) 1 2 Hr)
    as (st' & Hst' & _ & Hbodies & _).
  exists st'. split; [exact Hst'|].
  destruct floor_allocated as [b Hb]. rewrite Hb. exact (Hbodies _ _ Hb).
Defined.

(** ** What a rejected shape leaves behind *)

(** X19: the factories add the mesh to the scene before they construct
    the collision shape, so when the shape constructor rejects a
    negative radius the call throws half-way: a new mesh is left in the
    scene, with no body added to the world and no pair appended to the
    registry (and, for a cylinder, with the position object of the
    caller already raised). *)
Theorem negative_radius_leaves_orphan_mesh (st : Script.State) (position : ref)
        (p : Vec3.t) (radius : R) :
  Script.objects st !! position = Some p ->
  radius < 0 ->
  (exists st',
      Script.createSphere radius position st = Script.Throws st' /\
      Script.scene st' = Script.scene st ++ [fresh (dom (Script.meshes st))] /\
      is_Some (Script.meshes st' !! fresh (dom (Script.meshes st))) /\
      Script.world st' = Script.world st /\
      Script.bodies st' = Script.bodies st /\
      Script.objectsToUpdate st' = Script.objectsToUpdate st /\
      Script.objects st' = Script.objects st)
  /\ (forall height : R,
      exists st',
        Script.createCylinder radius height position st = Script.Throws st' /\
        Script.scene st' = Script.scene st ++ [fresh (dom (Script.meshes st))] /\
        is_Some (Script.meshes st' !! fresh (dom (Script.meshes st))) /\
        Script.world st' = Script.world st /\
        Script.bodies st' = Script.bodies st /\
        Script.objectsToUpdate st' = Script.objectsToUpdate st /\
        Script.objects st'
        = <[position := Vec3.mk (Vec3.x p) (Vec3.y p + height * 0.5 / 2) (Vec3.z p)]>
            (Script.objects st)).
Proof.
  intros Hpos Hneg. split; [|intros height].
  - unfold Script.createSphere, CANNON.newSphere. rewrite Hpos. simpl.
    destruct (Rlt_dec radius 0) as [_|Hge]; [|contradiction].
    eexists. split; [reflexivity|]. simpl.
    split; [reflexivity|]. split; [rewrite lookup_insert_eq; eauto|].
    repeat split; reflexivity.
  - unfold Script.createCylinder, CANNON.newCylinder. rewrite Hpos. simpl.
    destruct (Rlt_dec (radius * 0.2) 0) as [_|Hge]; [|exfalso; lra].
    eexists. split; [reflexivity|]. simpl.
    split; [reflexivity|]. split; [rewrite lookup_insert_eq; eauto|].
    repeat split; reflexivity.
Qed.

Lemma negative_radius_witness :
  Script.objects withPosition.2 !! withPosition.1 = Some (Vec3.mk 0 3 0)
  /\ -1 < 0
  /\ exists st',
      Script.createSphere (-1) withPosition.1 withPosition.2 = Script.Throws st' /\
      Script.scene st'
      = Script.scene withPosition.2 ++ [fresh (dom (Script.meshes withPosition.2))] /\
      is_Some (Script.meshes st' !! fresh (dom (Script.meshes withPosition.2))) /\
      Script.world st' = Script.world withPosition.2 /\
      Script.bodies st' = Script.bodies withPosition.2 /\
      Script.objectsToUpdate st' = Script.objectsToUpdate withPosition.2 /\
      Script.objects st' = Script.objects withPosition.2.
Proof.
  assert (Hr : -1 < 0) by lra.
  split; [exact withPosition_allocated|]. split; [exact Hr|].
  exact (proj1 (negative_radius_leaves_orphan_mesh withPosition.2 withPosition.1
                  (Vec3.mk 0 3 0) (-1) withPosition_allocated Hr)).
Defined.
